(** * Constraint validation layer of the ASIC firmware

    A shallow embedding of [src/constraints/constraints.c] and
    [src/constraints/constraints.h], and the properties of the validators,
    the resource health checker, the violation reporter and the error
    handler that follow from the code.

    - [uint32_t] values are integers of [Z] in the range [0 .. 2^32 - 1].
    - C strings are values of [string]; [snprintf] builds the formatted text
      and cuts it to the size of the destination buffer.  The conversions
      [%lu] and [%lX] are those of a target on which [uint32_t] is
      [unsigned long].
    - The code has no global variable.  Its only effect is the text it
      prints through [LogHandler]; a call is modelled as a function from the
      trace of what has happened so far to an outcome and the extended
      trace.
    - [ErrorHandler] ends in [while (true) { }].  Loops are run with fuel:
      every iteration costs one unit, and a call that is still inside a loop
      when the fuel is gone has the outcome [Spinning].  "The call never
      returns" is "the outcome is [Spinning] whatever the fuel". *)

From Stdlib Require Import ZArith String Ascii List Bool Lia.
Import ListNotations.

Local Open Scope string_scope.
Local Open Scope Z_scope.

(* ================================================================== *)
(** ** Machine integers and text formatting *)

Definition UINT32_MAX : Z := 4294967295.

(** A value of type [uint32_t]. *)
Definition uint32 (x : Z) : Prop := 0 <= x <= UINT32_MAX.

(** The character of the digit [d] in bases up to sixteen, capital letters
    as in the [X] conversion. *)
Definition digit_char (d : Z) : ascii :=
  match String.get (Z.to_nat d) "0123456789ABCDEF" with
  | Some c => c
  | None => "?"%char
  end.

(** The digits of [n] in base [base], most significant first, in front of
    [acc].  [fuel] bounds the number of digits. *)
Fixpoint to_base (base : Z) (fuel : nat) (n : Z) (acc : string) : string :=
  match fuel with
  | O => acc
  | S fuel' =>
      let acc' := String (digit_char (n mod base)) acc in
      if n / base =? 0 then acc' else to_base base fuel' (n / base) acc'
  end.

(** A string of [n] zero characters. *)
Fixpoint zeros (n : nat) : string :=
  match n with
  | O => ""
  | S n' => String "0"%char (zeros n')
  end.

(** Left padding with zeros up to [width] characters. *)
Definition pad0 (width : nat) (s : string) : string :=
  zeros (width - String.length s) ++ s.

(** The conversion [%lu]. *)
Definition fmt_lu (n : Z) : string := to_base 10 32 n "".

(** The conversions [%02lX] and [%08lX]: [fmt_lX 2] and [fmt_lX 8]. *)
Definition fmt_lX (width : nat) (n : Z) : string := pad0 width (to_base 16 32 n "").

(** The first [n] characters of a string. *)
Fixpoint truncate (n : nat) (s : string) : string :=
  match n, s with
  | S n', String c s' => String c (truncate n' s')
  | _, _ => ""
  end.

(** [snprintf(buf, size, ...)]: the text stored in [buf] is the formatted
    text cut to [size - 1] characters. *)
Definition snprintf (size : nat) (formatted : string) : string :=
  truncate (size - 1) formatted.

Definition newline : string := String (ascii_of_nat 10) "".

(* ================================================================== *)
(** ** Traces and calls *)

(** What a run of the module does, in order.  [Printf] is the text written
    by the [printf] of [LogHandler]; the two other events record the entry
    into [ConstraintsManager_ReportViolation] and into [ErrorHandler] with
    the arguments of the call. *)
Inductive event : Type :=
| Printf (text : string)
| Enter_ReportViolation (constraint_id : Z) (error_message : string)
| Enter_ErrorHandler (violation_id : Z) (message : string).

Definition trace : Type := list event.

(** The outcome of a call. *)
Inductive outcome (A : Type) : Type :=
| Returned (a : A)
| Spinning.

Arguments Returned {A} a.
Arguments Spinning {A}.

(** A call: from the fuel for its loops and the trace so far to its outcome
    and the trace it leaves. *)
Definition call (A : Type) : Type := nat -> trace -> outcome A * trace.

Definition ret {A : Type} (a : A) : call A :=
  fun _ t => (Returned a, t).

Definition bind {A B : Type} (m : call A) (k : A -> call B) : call B :=
  fun fuel t =>
    match m fuel t with
    | (Returned a, t') => k a fuel t'
    | (Spinning, t') => (Spinning, t')
    end.

Notation "x <- m ;; k" := (bind m (fun x => k))
  (at level 61, m at next level, right associativity).
Notation "m ;; k" := (bind m (fun _ => k))
  (at level 61, right associativity).

Definition emit (e : event) : call unit :=
  fun _ t => (Returned tt, (t ++ [e])%list).

(** [while (cond) { body }]. *)
Fixpoint while_loop (cond : call bool) (body : call unit) (fuel : nat) (t : trace)
  : outcome unit * trace :=
  match cond fuel t with
  | (Spinning, t') => (Spinning, t')
  | (Returned false, t') => (Returned tt, t')
  | (Returned true, t') =>
      match fuel with
      | O => (Spinning, t')
      | S fuel' =>
          match body fuel' t' with
          | (Spinning, t'') => (Spinning, t'')
          | (Returned _, t'') => while_loop cond body fuel' t''
          end
      end
  end.

(** The number of entries into the reporter in a trace, the number of those
    with a given identifier, and the number of entries into [ErrorHandler]. *)
Definition count_reports (t : trace) : nat :=
  List.length (filter (fun e => match e with Enter_ReportViolation _ _ => true | _ => false end) t).

Definition count_reports_of (id : Z) (t : trace) : nat :=
  List.length (filter (fun e => match e with Enter_ReportViolation i _ => i =? id | _ => false end) t).

Definition count_escalations (t : trace) : nat :=
  List.length (filter (fun e => match e with Enter_ErrorHandler _ _ => true | _ => false end) t).

(* ================================================================== *)
(** ** constraints.h: constraint identifiers *)

Definition CONSTRAINT_ID_SYS_CLK_RANGE : Z := 0x01.
Definition CONSTRAINT_ID_RAM_ACCESS_OOB : Z := 0x02.
Definition CONSTRAINT_ID_SENSOR_TIMEOUT : Z := 0x03.
Definition CONSTRAINT_ID_COMM_BUFFER_FULL : Z := 0x04.

(* ================================================================== *)
(** ** constraints.c: private constants *)

Definition SYS_CLK_MIN_HZ : Z := 80000000.
Definition SYS_CLK_MAX_HZ : Z := 200000000.

Definition RAM_START_ADDR : Z := 0x20000000.
Definition RAM_SIZE_BYTES : Z := 131072.
Definition RAM_END_ADDR : Z := RAM_START_ADDR + RAM_SIZE_BYTES - 1.

(* ================================================================== *)
(** ** constraints.c: private helpers *)

(** The line printed by [printf("[%s] CONSTRAINTS: %s\n", level, message)]. *)
Definition log_line (level message : string) : string :=
  "[" ++ level ++ "] CONSTRAINTS: " ++ message ++ newline.

Definition LogHandler (level message : string) : call unit :=
  emit (Printf (log_line level message)).

Definition ErrorHandler (violation_id : Z) (message : string) : call unit :=
  emit (Enter_ErrorHandler violation_id message) ;;
  LogHandler "FATAL" message ;;
  while_loop (ret true) (ret tt).

(* ================================================================== *)
(** ** constraints.c: the violation reporter *)

Definition halt_message : string := "Critical constraint violation. System halted.".

Definition ConstraintsManager_ReportViolation (constraint_id : Z) (error_message : string)
  : call unit :=
  emit (Enter_ReportViolation constraint_id error_message) ;;
  let full_msg :=
    snprintf 256 ("Violation ID 0x" ++ fmt_lX 2 constraint_id ++ ": " ++ error_message) in
  LogHandler "ERROR" full_msg ;;
  if (constraint_id =? CONSTRAINT_ID_SYS_CLK_RANGE)
     || (constraint_id =? CONSTRAINT_ID_RAM_ACCESS_OOB)
  then ErrorHandler constraint_id halt_message
  else ret tt.

(* ================================================================== *)
(** ** constraints.c: the validators and the resource health checker *)

Section Validators.

(** The validators call the reporter; [report] stands for that callee, so
    that what the body of a validator does can be told apart from what
    the reporter does. *)
Variable report : Z -> string -> call unit.

Definition ValidateClockFrequency_body (freq_hz : Z) : call bool :=
  if (freq_hz <? SYS_CLK_MIN_HZ) || (freq_hz >? SYS_CLK_MAX_HZ) then
    let msg :=
      snprintf 128
        ("Clock frequency " ++ fmt_lu freq_hz ++ " Hz is out of bounds ["
           ++ fmt_lu SYS_CLK_MIN_HZ ++ " - " ++ fmt_lu SYS_CLK_MAX_HZ ++ "] Hz.") in
    report CONSTRAINT_ID_SYS_CLK_RANGE msg ;;
    ret false
  else ret true.

Definition ValidateRamAddress_body (address : Z) : call bool :=
  if (address <? RAM_START_ADDR) || (address >? RAM_END_ADDR) then
    let msg :=
      snprintf 128
        ("Memory access 0x" ++ fmt_lX 8 address ++ " is outside RAM range [0x"
           ++ fmt_lX 8 RAM_START_ADDR ++ " - 0x" ++ fmt_lX 8 RAM_END_ADDR ++ "].") in
    report CONSTRAINT_ID_RAM_ACCESS_OOB msg ;;
    ret false
  else ret true.

End Validators.

Definition ConstraintsManager_ValidateClockFrequency (freq_hz : Z) : call bool :=
  ValidateClockFrequency_body ConstraintsManager_ReportViolation freq_hz.

Definition ConstraintsManager_ValidateRamAddress (address : Z) : call bool :=
  ValidateRamAddress_body ConstraintsManager_ReportViolation address.

Definition ConstraintsManager_CheckCriticalResource (resource_id : Z) : call bool :=
  if resource_id =? CONSTRAINT_ID_SENSOR_TIMEOUT then
    LogHandler "INFO" "Sensor check OK." ;;
    ret true
  else if resource_id =? CONSTRAINT_ID_COMM_BUFFER_FULL then
    LogHandler "INFO" "Communication buffer check OK." ;;
    ret true
  else
    let msg :=
      snprintf 64 ("Unknown resource ID 0x" ++ fmt_lX 2 resource_id ++ " for check.") in
    LogHandler "WARN" msg ;;
    ret false.

Definition ConstraintsManager_Init : call bool :=
  LogHandler "INFO" "Constraints module initialized." ;;
  ok <- ConstraintsManager_ValidateClockFrequency (SYS_CLK_MIN_HZ + 1000) ;;
  (if negb ok
   then LogHandler "WARN" "Initial clock frequency might be out of range."
   else ret tt) ;;
  ret true.

(** The text of the messages the validators pass to the reporter. *)
Definition clock_message (freq_hz : Z) : string :=
  snprintf 128
    ("Clock frequency " ++ fmt_lu freq_hz ++ " Hz is out of bounds ["
       ++ fmt_lu SYS_CLK_MIN_HZ ++ " - " ++ fmt_lu SYS_CLK_MAX_HZ ++ "] Hz.").

Definition ram_message (address : Z) : string :=
  snprintf 128
    ("Memory access 0x" ++ fmt_lX 8 address ++ " is outside RAM range [0x"
       ++ fmt_lX 8 RAM_START_ADDR ++ " - 0x" ++ fmt_lX 8 RAM_END_ADDR ++ "].").

Definition violation_text (constraint_id : Z) (error_message : string) : string :=
  snprintf 256 ("Violation ID 0x" ++ fmt_lX 2 constraint_id ++ ": " ++ error_message).

Definition unknown_resource_text (resource_id : Z) : string :=
  snprintf 64 ("Unknown resource ID 0x" ++ fmt_lX 2 resource_id ++ " for check.").

(* ================================================================== *)
(** ** Vocabulary of the statements *)

(** The identifiers the reporter hands to [ErrorHandler]. *)
Definition is_fatal (constraint_id : Z) : bool :=
  (constraint_id =? CONSTRAINT_ID_SYS_CLK_RANGE)
  || (constraint_id =? CONSTRAINT_ID_RAM_ACCESS_OOB).

(** What a call of the reporter with a fatal identifier adds to the trace:
    its own entry and error line, then the entry and the fatal line of
    [ErrorHandler]. *)
Definition fatal_events (constraint_id : Z) (error_message : string) : trace :=
  [Enter_ReportViolation constraint_id error_message;
   Printf (log_line "ERROR" (violation_text constraint_id error_message));
   Enter_ErrorHandler constraint_id halt_message;
   Printf (log_line "FATAL" halt_message)].

Definition clock_out_of_range (freq_hz : Z) : bool :=
  (freq_hz <? SYS_CLK_MIN_HZ) || (freq_hz >? SYS_CLK_MAX_HZ).

Definition ram_out_of_range (address : Z) : bool :=
  (address <? RAM_START_ADDR) || (address >? RAM_END_ADDR).

(** Reading a number back from its digits. *)
Definition digit_value (c : ascii) : Z :=
  let n := Z.of_nat (nat_of_ascii c) in
  if (48 <=? n) && (n <=? 57) then n - 48
  else if (65 <=? n) && (n <=? 70) then n - 55
  else 0.

Fixpoint parse_acc (base : Z) (v : Z) (s : string) : Z :=
  match s with
  | EmptyString => v
  | String c s' => parse_acc base (v * base + digit_value c) s'
  end.

Definition parse_base (base : Z) (s : string) : Z := parse_acc base 0 s.

(** The public functions of [constraints.h], as a caller can invoke them. *)
Inductive api_call : Type :=
| Call_Init
| Call_ValidateClockFrequency (freq_hz : Z)
| Call_ValidateRamAddress (address : Z)
| Call_CheckCriticalResource (resource_id : Z)
| Call_ReportViolation (constraint_id : Z) (error_message : string).

(** One call of the interface, its result dropped. *)
Definition run_call (c : api_call) : call unit :=
  match c with
  | Call_Init => ConstraintsManager_Init ;; ret tt
  | Call_ValidateClockFrequency freq_hz =>
      ConstraintsManager_ValidateClockFrequency freq_hz ;; ret tt
  | Call_ValidateRamAddress address =>
      ConstraintsManager_ValidateRamAddress address ;; ret tt
  | Call_CheckCriticalResource resource_id =>
      ConstraintsManager_CheckCriticalResource resource_id ;; ret tt
  | Call_ReportViolation constraint_id error_message =>
      ConstraintsManager_ReportViolation constraint_id error_message
  end.

(** A caller that makes the calls of [cs] one after the other. *)
Fixpoint run_calls (cs : list api_call) : call unit :=
  match cs with
  | [] => ret tt
  | c :: cs' => run_call c ;; run_calls cs'
  end.

(** The calls that report a fatal violation. *)
Definition fatal_call (c : api_call) : bool :=
  match c with
  | Call_ValidateClockFrequency freq_hz => clock_out_of_range freq_hz
  | Call_ValidateRamAddress address => ram_out_of_range address
  | Call_ReportViolation constraint_id _ => is_fatal constraint_id
  | Call_Init | Call_CheckCriticalResource _ => false
  end.

(** The two states of the module: control is with the caller, or it is
    inside the loop of [ErrorHandler]. *)
Inductive mode : Type := Operational | Halted.

Definition mode_after {A : Type} (r : outcome A * trace) : mode :=
  match fst r with
  | Returned _ => Operational
  | Spinning => Halted
  end.

(** The same call made twice in a row, and whether the two results agree. *)
Definition twice (m : call bool) : call bool :=
  b1 <- m ;; b2 <- m ;; ret (Bool.eqb b1 b2).

(* ================================================================== *)
(** ** main.c *)

(** The three managers have empty bodies in the source. *)
Definition SystemManager : call unit := ret tt.

Definition HardwareManager : call unit := ret tt.

Definition ApplicationManager : call unit := ret tt.

Definition main : call Z :=
  SystemManager ;;
  HardwareManager ;;
  while_loop (ret true) ApplicationManager ;;
  ret 0.

(* ================================================================== *)
(** ** Vocabulary of the statements about logs and runs *)

(** The severities [LogHandler] is called with. *)
Definition log_levels : list string := ["INFO"; "WARN"; "ERROR"; "FATAL"].

(** A printed text carries a severity tag when it starts with
    "[LEVEL] CONSTRAINTS: " for one of these severities. *)
Definition has_severity_tag (text : string) : bool :=
  existsb (fun level => String.prefix ("[" ++ level ++ "] CONSTRAINTS: ") text)
    log_levels.

(** The last character of a text is the newline character. *)
Fixpoint ends_with_newline (s : string) : bool :=
  match s with
  | EmptyString => false
  | String c EmptyString => Ascii.eqb c (ascii_of_nat 10)
  | String _ s' => ends_with_newline s'
  end.

Definition printed_text_ok (e : event) : bool :=
  match e with
  | Printf text => has_severity_tag text && ends_with_newline text
  | Enter_ReportViolation _ _ | Enter_ErrorHandler _ _ => true
  end.

(** The events one call of the interface adds to the trace, and those of a
    caller that makes the calls of [cs] in order and stops at the first one
    that does not return. *)
Definition call_events (c : api_call) : trace :=
  match c with
  | Call_Init => [Printf (log_line "INFO" "Constraints module initialized.")]
  | Call_ValidateClockFrequency freq_hz =>
      if clock_out_of_range freq_hz
      then fatal_events CONSTRAINT_ID_SYS_CLK_RANGE (clock_message freq_hz)
      else []
  | Call_ValidateRamAddress address =>
      if ram_out_of_range address
      then fatal_events CONSTRAINT_ID_RAM_ACCESS_OOB (ram_message address)
      else []
  | Call_CheckCriticalResource resource_id =>
      if resource_id =? CONSTRAINT_ID_SENSOR_TIMEOUT
      then [Printf (log_line "INFO" "Sensor check OK.")]
      else if resource_id =? CONSTRAINT_ID_COMM_BUFFER_FULL
           then [Printf (log_line "INFO" "Communication buffer check OK.")]
           else [Printf (log_line "WARN" (unknown_resource_text resource_id))]
  | Call_ReportViolation constraint_id error_message =>
      if is_fatal constraint_id
      then fatal_events constraint_id error_message
      else [Enter_ReportViolation constraint_id error_message;
            Printf (log_line "ERROR" (violation_text constraint_id error_message))]
  end.

Fixpoint calls_events (cs : list api_call) : trace :=
  match cs with
  | [] => []
  | c :: cs' =>
      (call_events c ++ (if fatal_call c then [] else calls_events cs'))%list
  end.

(** Reading a number at the start of a text: the digits up to the first
    character that is not one. *)
Definition is_digit_char (c : ascii) : bool :=
  let n := Z.of_nat (nat_of_ascii c) in
  ((48 <=? n) && (n <=? 57)) || ((65 <=? n) && (n <=? 70)).

Fixpoint read_number (base : Z) (v : Z) (s : string) : Z :=
  match s with
  | EmptyString => v
  | String c s' =>
      if is_digit_char c then read_number base (v * base + digit_value c) s' else v
  end.

Fixpoint all_digits (s : string) : bool :=
  match s with
  | EmptyString => true
  | String c s' => is_digit_char c && all_digits s'
  end.

(** A text without its first [n] characters. *)
Fixpoint drop (n : nat) (s : string) : string :=
  match n, s with
  | S n', String _ s' => drop n' s'
  | _, _ => s
  end.

(* ================================================================== *)
(** ** Facts about the text formatting *)

Lemma length_append (s1 s2 : string) :
  String.length (s1 ++ s2) = (String.length s1 + String.length s2)%nat.
Proof.
  induction s1 as [|c s1 IH]; simpl; [reflexivity | now rewrite IH].
Qed.

Lemma append_assoc (s1 s2 s3 : string) : (s1 ++ s2) ++ s3 = s1 ++ (s2 ++ s3).
Proof.
  induction s1 as [|c s1 IH]; simpl; [reflexivity | now rewrite IH].
Qed.

Lemma length_zeros (n : nat) : String.length (zeros n) = n.
Proof.
  induction n as [|n IH]; simpl; [reflexivity | now rewrite IH].
Qed.

Lemma length_to_base (base : Z) (fuel : nat) :
  forall n acc,
    (String.length (to_base base fuel n acc) <= fuel + String.length acc)%nat.
Proof.
  induction fuel as [|fuel IH]; intros n acc; simpl.
  - lia.
  - destruct (n / base =? 0).
    + simpl. lia.
    + specialize (IH (n / base) (String (digit_char (n mod base)) acc)).
      simpl in IH. lia.
Qed.

Lemma length_pad0 (width : nat) (s : string) :
  String.length (pad0 width s) = Nat.max width (String.length s).
Proof.
  unfold pad0. rewrite length_append, length_zeros. lia.
Qed.

Lemma length_fmt_lX (width : nat) (n : Z) :
  (width <= 32)%nat -> (String.length (fmt_lX width n) <= 32)%nat.
Proof.
  intros Hw. unfold fmt_lX. rewrite length_pad0.
  pose proof (length_to_base 16 32 n "") as H.
  change (String.length "") with 0%nat in H. lia.
Qed.

(** A text that fits in the buffer stays in front of what [snprintf]
    stores. *)
Lemma prefix_truncate (p : string) :
  forall n s, (String.length p <= n)%nat -> String.prefix p (truncate n (p ++ s)) = true.
Proof.
  induction p as [|c p IH]; intros n s Hlen.
  - destruct (truncate n ("" ++ s)); reflexivity.
  - destruct n as [|n]; simpl in Hlen; [lia|].
    simpl. destruct (ascii_dec c c) as [_|Hne]; [|now elim Hne].
    apply IH. lia.
Qed.

Lemma prefix_append (p s : string) : String.prefix p (p ++ s) = true.
Proof.
  induction p as [|c p IH]; simpl.
  - destruct s; reflexivity.
  - destruct (ascii_dec c c) as [_|Hne]; [exact IH | now elim Hne].
Qed.

Lemma prefix_append_both (h p s : string) :
  String.prefix p s = true -> String.prefix (h ++ p) (h ++ s) = true.
Proof.
  intros H. induction h as [|c h IH]; simpl; [exact H|].
  destruct (ascii_dec c c) as [_|Hne]; [exact IH | now elim Hne].
Qed.

Lemma prefix_append_right (p : string) :
  forall s r, String.prefix p s = true -> String.prefix p (s ++ r) = true.
Proof.
  induction p as [|c p IH]; intros s r H.
  - destruct (s ++ r); reflexivity.
  - destruct s as [|c' s]; simpl in *; [discriminate|].
    destruct (ascii_dec c c'); [now apply IH | discriminate].
Qed.

Lemma append_nil_r (s : string) : s ++ "" = s.
Proof.
  induction s as [|c s IH]; simpl; [reflexivity | now rewrite IH].
Qed.

Lemma digit_value_digit_char (d : Z) :
  0 <= d < 16 -> digit_value (digit_char d) = d.
Proof.
  intros H.
  assert (Hd : exists k, (k < 16)%nat /\ d = Z.of_nat k).
  { exists (Z.to_nat d). split; lia. }
  destruct Hd as (k & Hk & ->).
  do 16 (destruct k as [|k]; [reflexivity|]). lia.
Qed.

Lemma parse_acc_app (base v : Z) (s1 s2 : string) :
  parse_acc base v (s1 ++ s2) = parse_acc base (parse_acc base v s1) s2.
Proof.
  revert v. induction s1 as [|c s1 IH]; intros v; simpl; [reflexivity | apply IH].
Qed.

Lemma parse_acc_zeros (base : Z) (k : nat) : parse_acc base 0 (zeros k) = 0.
Proof.
  induction k as [|k IH]; simpl; [reflexivity|].
  replace (0 * base + digit_value "0") with 0 by (unfold digit_value; simpl; lia).
  exact IH.
Qed.

Section Digits.

Variable base : Z.
Hypothesis base_range : 2 <= base <= 16.

(** [to_base] puts in front of [acc] a text that reads back as [n]. *)
Lemma to_base_digits (fuel : nat) :
  forall n acc,
    0 <= n < base ^ Z.of_nat fuel ->
    exists ds,
      to_base base fuel n acc = ds ++ acc
      /\ forall v,
          parse_acc base v ds = v * base ^ Z.of_nat (String.length ds) + n.
Proof.
  induction fuel as [|fuel IH]; intros n acc Hn.
  - exists "". split; [reflexivity|]. intros v. simpl in *. lia.
  - cbn [to_base].
    assert (Hmod : 0 <= n mod base < base) by (apply Z.mod_pos_bound; lia).
    assert (Hdm : n = base * (n / base) + n mod base) by (apply Z.div_mod; lia).
    destruct (Z.eqb_spec (n / base) 0) as [Hz|Hnz].
    + exists (String (digit_char (n mod base)) ""). split; [reflexivity|].
      intros v. cbn [parse_acc String.length].
      rewrite digit_value_digit_char by lia.
      change (Z.of_nat 1) with 1. rewrite Z.pow_1_r. nia.
    + assert (Hq : 0 <= n / base < base ^ Z.of_nat fuel).
      { split; [apply Z.div_pos; lia|].
        apply Z.div_lt_upper_bound; [lia|].
        rewrite Nat2Z.inj_succ, Z.pow_succ_r in Hn by lia. lia. }
      destruct (IH (n / base) (String (digit_char (n mod base)) acc) Hq)
        as (ds & Hds & Hparse).
      exists (ds ++ String (digit_char (n mod base)) ""). split.
      * rewrite Hds, append_assoc. reflexivity.
      * intros v. rewrite parse_acc_app, Hparse. cbn [parse_acc].
        rewrite digit_value_digit_char by lia.
        rewrite length_append. cbn [String.length].
        rewrite Nat2Z.inj_add. change (Z.of_nat 1) with 1.
        rewrite Z.pow_add_r, Z.pow_1_r by lia. nia.
Qed.

(** A number below [base ^ k] has at most [k] digits. *)
Lemma length_to_base_tight (fuel : nat) :
  forall n acc k,
    (1 <= k)%nat ->
    0 <= n < base ^ Z.of_nat k ->
    (String.length (to_base base fuel n acc) <= k + String.length acc)%nat.
Proof.
  induction fuel as [|fuel IH]; intros n acc k Hk Hn; cbn [to_base].
  - lia.
  - destruct (Z.eqb_spec (n / base) 0) as [Hz|Hnz].
    + cbn [String.length]. lia.
    + destruct k as [|[|k]]; [lia| |].
      * exfalso. apply Hnz. apply Z.div_small.
        change (Z.of_nat 1) with 1 in Hn. rewrite Z.pow_1_r in Hn. exact Hn.
      * assert (Hq : 0 <= n / base < base ^ Z.of_nat (S k)).
        { split; [apply Z.div_pos; lia|].
          apply Z.div_lt_upper_bound; [lia|].
          rewrite (Nat2Z.inj_succ (S k)), Z.pow_succ_r in Hn by lia. lia. }
        specialize (IH (n / base) (String (digit_char (n mod base)) acc) (S k)
                      ltac:(lia) Hq).
        cbn [String.length] in IH. lia.
Qed.

End Digits.

(** The [%02lX] and [%08lX] text of a 32-bit value reads back as the value
    and has at most eight digits. *)
Lemma parse_fmt_lX (width : nat) (n : Z) :
  uint32 n -> parse_base 16 (fmt_lX width n) = n.
Proof.
  intros [Hlo Hhi]. unfold UINT32_MAX in Hhi.
  destruct (to_base_digits 16 ltac:(lia) 32 n "") as (ds & Hds & Hparse).
  { split; [exact Hlo|]. change (16 ^ Z.of_nat 32) with 340282366920938463463374607431768211456. lia. }
  unfold parse_base, fmt_lX, pad0. rewrite Hds, append_nil_r.
  rewrite parse_acc_app, parse_acc_zeros, Hparse. lia.
Qed.

Lemma parse_fmt_lu (n : Z) :
  uint32 n -> parse_base 10 (fmt_lu n) = n.
Proof.
  intros [Hlo Hhi]. unfold UINT32_MAX in Hhi.
  destruct (to_base_digits 10 ltac:(lia) 32 n "") as (ds & Hds & Hparse).
  { split; [exact Hlo|]. change (10 ^ Z.of_nat 32) with 100000000000000000000000000000000. lia. }
  unfold parse_base, fmt_lu. rewrite Hds, append_nil_r, Hparse. lia.
Qed.

Lemma length_fmt_lX_uint32 (width : nat) (n : Z) :
  uint32 n ->
  (width <= String.length (fmt_lX width n) <= Nat.max width 8)%nat.
Proof.
  intros [Hlo Hhi]. unfold UINT32_MAX in Hhi.
  unfold fmt_lX. rewrite length_pad0.
  pose proof (length_to_base_tight 16 ltac:(lia) 32 n "" 8%nat ltac:(lia)) as H.
  change (16 ^ Z.of_nat 8) with 4294967296 in H.
  change (String.length "") with 0%nat in H.
  specialize (H ltac:(lia)). lia.
Qed.

(* ================================================================== *)
(** ** Facts about calls *)

Lemma bind_returned {A B : Type} (m : call A) (k : A -> call B) fuel t a t' :
  m fuel t = (Returned a, t') -> bind m k fuel t = k a fuel t'.
Proof. intros H. unfold bind. now rewrite H. Qed.

Lemma bind_spinning {A B : Type} (m : call A) (k : A -> call B) fuel t t' :
  m fuel t = (Spinning, t') -> bind m k fuel t = (Spinning, t').
Proof. intros H. unfold bind. now rewrite H. Qed.

(** [while (true) { }] is still running whatever the fuel, and adds nothing
    to the trace. *)
Lemma while_true_spins (fuel : nat) :
  forall t, while_loop (ret true) (ret tt) fuel t = (Spinning, t).
Proof.
  induction fuel as [|fuel IH]; intros t; simpl; [reflexivity | apply IH].
Qed.

(** A loop whose condition is false returns at once: the loop construct
    itself can return. *)
Lemma while_false_returns (body : call unit) (fuel : nat) (t : trace) :
  while_loop (ret false) body fuel t = (Returned tt, t).
Proof. destruct fuel; reflexivity. Qed.

Lemma LogHandler_returns (level message : string) (fuel : nat) (t : trace) :
  LogHandler level message fuel t
  = (Returned tt, (t ++ [Printf (log_line level message)])%list).
Proof. reflexivity. Qed.

Lemma ErrorHandler_spins (violation_id : Z) (message : string) (fuel : nat) (t : trace) :
  ErrorHandler violation_id message fuel t
  = (Spinning,
     (t ++ [Enter_ErrorHandler violation_id message;
            Printf (log_line "FATAL" message)])%list).
Proof.
  unfold ErrorHandler, LogHandler, emit, bind.
  rewrite while_true_spins. now rewrite <- app_assoc.
Qed.

Lemma is_fatal_true (id : Z) : is_fatal id = true <-> id = 0x01 \/ id = 0x02.
Proof.
  unfold is_fatal, CONSTRAINT_ID_SYS_CLK_RANGE, CONSTRAINT_ID_RAM_ACCESS_OOB.
  rewrite orb_true_iff, !Z.eqb_eq. reflexivity.
Qed.

Lemma is_fatal_false (id : Z) : is_fatal id = false <-> id <> 0x01 /\ id <> 0x02.
Proof.
  unfold is_fatal, CONSTRAINT_ID_SYS_CLK_RANGE, CONSTRAINT_ID_RAM_ACCESS_OOB.
  rewrite orb_false_iff, !Z.eqb_neq. reflexivity.
Qed.

Lemma ReportViolation_fatal (id : Z) (msg : string) (fuel : nat) (t : trace) :
  is_fatal id = true ->
  ConstraintsManager_ReportViolation id msg fuel t
  = (Spinning,
     (t ++ [Enter_ReportViolation id msg;
            Printf (log_line "ERROR" (violation_text id msg));
            Enter_ErrorHandler id halt_message;
            Printf (log_line "FATAL" halt_message)])%list).
Proof.
  intros Hf. unfold ConstraintsManager_ReportViolation, LogHandler, emit, bind.
  fold (is_fatal id). rewrite Hf, ErrorHandler_spins.
  rewrite <- !app_assoc. reflexivity.
Qed.

Lemma ReportViolation_recoverable (id : Z) (msg : string) (fuel : nat) (t : trace) :
  is_fatal id = false ->
  ConstraintsManager_ReportViolation id msg fuel t
  = (Returned tt,
     (t ++ [Enter_ReportViolation id msg;
            Printf (log_line "ERROR" (violation_text id msg))])%list).
Proof.
  intros Hf. unfold ConstraintsManager_ReportViolation, LogHandler, emit, bind.
  fold (is_fatal id). rewrite Hf. unfold ret.
  rewrite <- !app_assoc. reflexivity.
Qed.

Lemma clock_out_of_range_true (f : Z) :
  clock_out_of_range f = true <-> f < 80000000 \/ 200000000 < f.
Proof.
  unfold clock_out_of_range, SYS_CLK_MIN_HZ, SYS_CLK_MAX_HZ.
  rewrite orb_true_iff, Z.ltb_lt, Z.gtb_ltb, Z.ltb_lt. reflexivity.
Qed.

Lemma clock_out_of_range_false (f : Z) :
  clock_out_of_range f = false <-> 80000000 <= f <= 200000000.
Proof.
  unfold clock_out_of_range, SYS_CLK_MIN_HZ, SYS_CLK_MAX_HZ.
  rewrite orb_false_iff, Z.ltb_ge, Z.gtb_ltb, Z.ltb_ge. reflexivity.
Qed.

Lemma ram_out_of_range_true (a : Z) :
  ram_out_of_range a = true <-> a < 0x20000000 \/ 0x2001FFFF < a.
Proof.
  unfold ram_out_of_range, RAM_END_ADDR, RAM_START_ADDR, RAM_SIZE_BYTES.
  rewrite orb_true_iff, Z.ltb_lt, Z.gtb_ltb, Z.ltb_lt. reflexivity.
Qed.

Lemma ram_out_of_range_false (a : Z) :
  ram_out_of_range a = false <-> 0x20000000 <= a <= 0x2001FFFF.
Proof.
  unfold ram_out_of_range, RAM_END_ADDR, RAM_START_ADDR, RAM_SIZE_BYTES.
  rewrite orb_false_iff, Z.ltb_ge, Z.gtb_ltb, Z.ltb_ge. reflexivity.
Qed.

Section ValidatorBodies.

Variable report : Z -> string -> call unit.

Lemma ValidateClockFrequency_body_in_range (f : Z) (fuel : nat) (t : trace) :
  clock_out_of_range f = false ->
  ValidateClockFrequency_body report f fuel t = (Returned true, t).
Proof.
  intros H. unfold ValidateClockFrequency_body.
  fold (clock_out_of_range f). now rewrite H.
Qed.

Lemma ValidateClockFrequency_body_out_of_range (f : Z) (fuel : nat) (t : trace) :
  clock_out_of_range f = true ->
  ValidateClockFrequency_body report f fuel t
  = (report CONSTRAINT_ID_SYS_CLK_RANGE (clock_message f) ;; ret false) fuel t.
Proof.
  intros H. unfold ValidateClockFrequency_body.
  fold (clock_out_of_range f). now rewrite H.
Qed.

Lemma ValidateRamAddress_body_in_range (a : Z) (fuel : nat) (t : trace) :
  ram_out_of_range a = false ->
  ValidateRamAddress_body report a fuel t = (Returned true, t).
Proof.
  intros H. unfold ValidateRamAddress_body.
  fold (ram_out_of_range a). now rewrite H.
Qed.

Lemma ValidateRamAddress_body_out_of_range (a : Z) (fuel : nat) (t : trace) :
  ram_out_of_range a = true ->
  ValidateRamAddress_body report a fuel t
  = (report CONSTRAINT_ID_RAM_ACCESS_OOB (ram_message a) ;; ret false) fuel t.
Proof.
  intros H. unfold ValidateRamAddress_body.
  fold (ram_out_of_range a). now rewrite H.
Qed.

End ValidatorBodies.

Lemma ValidateClockFrequency_in_range (f : Z) (fuel : nat) (t : trace) :
  clock_out_of_range f = false ->
  ConstraintsManager_ValidateClockFrequency f fuel t = (Returned true, t).
Proof. apply ValidateClockFrequency_body_in_range. Qed.

Lemma ValidateClockFrequency_out_of_range (f : Z) (fuel : nat) (t : trace) :
  clock_out_of_range f = true ->
  ConstraintsManager_ValidateClockFrequency f fuel t
  = (Spinning, (t ++ fatal_events CONSTRAINT_ID_SYS_CLK_RANGE (clock_message f))%list).
Proof.
  intros H. unfold ConstraintsManager_ValidateClockFrequency.
  rewrite ValidateClockFrequency_body_out_of_range by exact H.
  apply bind_spinning. now apply ReportViolation_fatal.
Qed.

Lemma ValidateRamAddress_in_range (a : Z) (fuel : nat) (t : trace) :
  ram_out_of_range a = false ->
  ConstraintsManager_ValidateRamAddress a fuel t = (Returned true, t).
Proof. apply ValidateRamAddress_body_in_range. Qed.

Lemma ValidateRamAddress_out_of_range (a : Z) (fuel : nat) (t : trace) :
  ram_out_of_range a = true ->
  ConstraintsManager_ValidateRamAddress a fuel t
  = (Spinning, (t ++ fatal_events CONSTRAINT_ID_RAM_ACCESS_OOB (ram_message a))%list).
Proof.
  intros H. unfold ConstraintsManager_ValidateRamAddress.
  rewrite ValidateRamAddress_body_out_of_range by exact H.
  apply bind_spinning. now apply ReportViolation_fatal.
Qed.

Lemma CheckCriticalResource_sensor (fuel : nat) (t : trace) :
  ConstraintsManager_CheckCriticalResource CONSTRAINT_ID_SENSOR_TIMEOUT fuel t
  = (Returned true, (t ++ [Printf (log_line "INFO" "Sensor check OK.")])%list).
Proof. reflexivity. Qed.

Lemma CheckCriticalResource_comm_buffer (fuel : nat) (t : trace) :
  ConstraintsManager_CheckCriticalResource CONSTRAINT_ID_COMM_BUFFER_FULL fuel t
  = (Returned true,
     (t ++ [Printf (log_line "INFO" "Communication buffer check OK.")])%list).
Proof. reflexivity. Qed.

Lemma CheckCriticalResource_unknown (id : Z) (fuel : nat) (t : trace) :
  id <> 0x03 -> id <> 0x04 ->
  ConstraintsManager_CheckCriticalResource id fuel t
  = (Returned false,
     (t ++ [Printf (log_line "WARN" (unknown_resource_text id))])%list).
Proof.
  intros H3 H4. unfold ConstraintsManager_CheckCriticalResource.
  unfold CONSTRAINT_ID_SENSOR_TIMEOUT, CONSTRAINT_ID_COMM_BUFFER_FULL.
  destruct (Z.eqb_spec id 3) as [E|_]; [contradiction|].
  destruct (Z.eqb_spec id 4) as [E|_]; [contradiction|].
  reflexivity.
Qed.

Lemma Init_returns_true (fuel : nat) (t : trace) :
  ConstraintsManager_Init fuel t
  = (Returned true,
     (t ++ [Printf (log_line "INFO" "Constraints module initialized.")])%list).
Proof.
  unfold ConstraintsManager_Init, bind at 1.
  rewrite LogHandler_returns.
  unfold bind at 1.
  rewrite ValidateClockFrequency_in_range by reflexivity.
  reflexivity.
Qed.

(* ================================================================== *)
(** ** Facts about callers of the interface *)

Lemma mode_after_returned {A : Type} (a : A) (t : trace) :
  mode_after (Returned a, t) = Operational.
Proof. reflexivity. Qed.

Lemma mode_after_spinning {A : Type} (t : trace) :
  mode_after (@Spinning A, t) = Halted.
Proof. reflexivity. Qed.

Lemma fatal_events_end (id : Z) (msg : string) (t : trace) :
  (t ++ fatal_events id msg
   = (t ++ [Enter_ReportViolation id msg;
            Printf (log_line "ERROR" (violation_text id msg))])
     ++ [Enter_ErrorHandler id halt_message;
         Printf (log_line "FATAL" halt_message)])%list.
Proof. unfold fatal_events. now rewrite <- app_assoc. Qed.

(** A call that reports a fatal violation does not return, and the last
    thing that happened is the fatal line of [ErrorHandler]. *)
Lemma run_call_fatal (c : api_call) (fuel : nat) (t : trace) :
  fatal_call c = true ->
  exists id msg,
    is_fatal id = true
    /\ run_call c fuel t = (Spinning, (t ++ fatal_events id msg)%list).
Proof.
  destruct c as [|f|a|r|id msg]; simpl; intros H; try discriminate.
  - exists CONSTRAINT_ID_SYS_CLK_RANGE, (clock_message f). split; [reflexivity|].
    apply bind_spinning. now apply ValidateClockFrequency_out_of_range.
  - exists CONSTRAINT_ID_RAM_ACCESS_OOB, (ram_message a). split; [reflexivity|].
    apply bind_spinning. now apply ValidateRamAddress_out_of_range.
  - exists id, msg. split; [exact H|]. now apply ReportViolation_fatal.
Qed.

(** Every other call returns, and [ErrorHandler] is not entered. *)
Lemma run_call_safe (c : api_call) :
  fatal_call c = false ->
  exists evs,
    count_escalations evs = 0%nat
    /\ forall fuel t, run_call c fuel t = (Returned tt, (t ++ evs)%list).
Proof.
  destruct c as [|f|a|r|id msg]; simpl; intros H.
  - eexists. split; [|intros fuel t; unfold bind; rewrite Init_returns_true; reflexivity].
    reflexivity.
  - exists []. split; [reflexivity|]. intros fuel t. unfold bind.
    rewrite ValidateClockFrequency_in_range by exact H. now rewrite app_nil_r.
  - exists []. split; [reflexivity|]. intros fuel t. unfold bind.
    rewrite ValidateRamAddress_in_range by exact H. now rewrite app_nil_r.
  - destruct (Z.eq_dec r 3) as [->|H3]; [|destruct (Z.eq_dec r 4) as [->|H4]].
    + eexists. split; [|intros fuel t; reflexivity]. reflexivity.
    + eexists. split; [|intros fuel t; reflexivity]. reflexivity.
    + eexists. split; [|intros fuel t; unfold bind;
                         rewrite CheckCriticalResource_unknown by assumption; reflexivity].
      reflexivity.
  - eexists. split; [|intros fuel t; rewrite ReportViolation_recoverable by exact H;
                       reflexivity].
    reflexivity.
Qed.

Lemma run_calls_cons_fatal (c : api_call) (cs : list api_call) (fuel : nat) (t : trace) :
  fatal_call c = true ->
  run_calls (c :: cs) fuel t = run_call c fuel t.
Proof.
  intros H. destruct (run_call_fatal c fuel t H) as (id & msg & _ & E).
  simpl. rewrite E. now apply bind_spinning.
Qed.

Lemma run_calls_cons_returned (c : api_call) (cs : list api_call) fuel t t' :
  run_call c fuel t = (Returned tt, t') ->
  run_calls (c :: cs) fuel t = run_calls cs fuel t'.
Proof. intros E. cbn [run_calls]. unfold bind. now rewrite E. Qed.

Lemma run_calls_cons_safe (c : api_call) (cs : list api_call) (fuel : nat) (t : trace) :
  fatal_call c = false ->
  exists evs, run_calls (c :: cs) fuel t = run_calls cs fuel (t ++ evs)%list.
Proof.
  intros H. destruct (run_call_safe c H) as (evs & _ & E).
  exists evs. now apply run_calls_cons_returned.
Qed.

(** The caller ends up halted exactly when one of its calls reports a fatal
    violation. *)
Lemma run_calls_halted_iff (cs : list api_call) (fuel : nat) :
  forall t, mode_after (run_calls cs fuel t) = Halted <-> existsb fatal_call cs = true.
Proof.
  induction cs as [|c cs IH]; intros t.
  - simpl. unfold ret. rewrite mode_after_returned. split; discriminate.
  - cbn [existsb]. destruct (fatal_call c) eqn:Hc.
    + rewrite run_calls_cons_fatal by exact Hc.
      destruct (run_call_fatal c fuel t Hc) as (id & msg & _ & E). rewrite E.
      rewrite mode_after_spinning. simpl. tauto.
    + destruct (run_calls_cons_safe c cs fuel t Hc) as (evs & E). rewrite E.
      simpl. apply IH.
Qed.

(** Once halted, nothing the caller had planned next takes place. *)
Lemma run_calls_halted_stays (cs cs' : list api_call) (fuel : nat) :
  forall t,
    mode_after (run_calls cs fuel t) = Halted ->
    run_calls (cs ++ cs') fuel t = run_calls cs fuel t.
Proof.
  induction cs as [|c cs IH]; intros t H.
  - simpl in H. unfold ret in H. rewrite mode_after_returned in H. discriminate.
  - rewrite <- app_comm_cons. destruct (fatal_call c) eqn:Hc.
    + now rewrite !run_calls_cons_fatal by exact Hc.
    + destruct (run_call_safe c Hc) as (evs & _ & E).
      rewrite (run_calls_cons_returned c cs fuel t _ (E fuel t)) in H.
      rewrite (run_calls_cons_returned c (cs ++ cs') fuel t _ (E fuel t)).
      rewrite (run_calls_cons_returned c cs fuel t _ (E fuel t)).
      now apply IH.
Qed.

(** A halted caller was last seen in [ErrorHandler], entered for a fatal
    identifier. *)
Lemma run_calls_halted_in_ErrorHandler (cs : list api_call) (fuel : nat) :
  forall t,
    mode_after (run_calls cs fuel t) = Halted ->
    exists t0 id,
      is_fatal id = true
      /\ snd (run_calls cs fuel t)
         = (t0 ++ [Enter_ErrorHandler id halt_message;
                   Printf (log_line "FATAL" halt_message)])%list.
Proof.
  induction cs as [|c cs IH]; intros t H.
  - simpl in H. unfold ret in H. rewrite mode_after_returned in H. discriminate.
  - destruct (fatal_call c) eqn:Hc.
    + rewrite run_calls_cons_fatal by exact Hc.
      destruct (run_call_fatal c fuel t Hc) as (id & msg & Hid & E).
      rewrite E, fatal_events_end. simpl. eauto.
    + destruct (run_calls_cons_safe c cs fuel t Hc) as (evs & E).
      rewrite E in *. now apply IH.
Qed.

(* ================================================================== *)
(** ** The code on the boundary values *)

Example fmt_lX_2_of_1 : fmt_lX 2 0x01 = "01".
Proof. reflexivity. Qed.

Example fmt_lX_2_of_4660 : fmt_lX 2 0x1234 = "1234".
Proof. reflexivity. Qed.

Example fmt_lX_8_of_ram_end : fmt_lX 8 RAM_END_ADDR = "2001FFFF".
Proof. reflexivity. Qed.

Example fmt_lu_of_zero : fmt_lu 0 = "0".
Proof. reflexivity. Qed.

Example clock_message_79999999 :
  clock_message 79999999
  = "Clock frequency 79999999 Hz is out of bounds [80000000 - 200000000] Hz.".
Proof. reflexivity. Qed.

Example ram_message_0x1FFFFFFF :
  ram_message 0x1FFFFFFF
  = "Memory access 0x1FFFFFFF is outside RAM range [0x20000000 - 0x2001FFFF].".
Proof. reflexivity. Qed.

Example violation_text_sensor :
  violation_text CONSTRAINT_ID_SENSOR_TIMEOUT "Sensor communication timed out."
  = "Violation ID 0x03: Sensor communication timed out.".
Proof. reflexivity. Qed.

Example unknown_resource_text_0xFF :
  unknown_resource_text 0xFF = "Unknown resource ID 0xFF for check.".
Proof. reflexivity. Qed.

Example clock_at_min : forall fuel,
  ConstraintsManager_ValidateClockFrequency 80000000 fuel [] = (Returned true, []).
Proof. reflexivity. Qed.

Example clock_at_max : forall fuel,
  ConstraintsManager_ValidateClockFrequency 200000000 fuel [] = (Returned true, []).
Proof. reflexivity. Qed.

Example ram_at_start : forall fuel,
  ConstraintsManager_ValidateRamAddress 0x20000000 fuel [] = (Returned true, []).
Proof. reflexivity. Qed.

Example ram_at_end : forall fuel,
  ConstraintsManager_ValidateRamAddress 0x2001FFFF fuel [] = (Returned true, []).
Proof. reflexivity. Qed.

Example clock_below_min_100_iterations :
  ConstraintsManager_ValidateClockFrequency 79999999 100%nat []
  = (Spinning,
     [Enter_ReportViolation 0x01
        "Clock frequency 79999999 Hz is out of bounds [80000000 - 200000000] Hz.";
      Printf ("[ERROR] CONSTRAINTS: Violation ID 0x01: Clock frequency 79999999 Hz is out of bounds [80000000 - 200000000] Hz."
                ++ newline);
      Enter_ErrorHandler 0x01 "Critical constraint violation. System halted.";
      Printf ("[FATAL] CONSTRAINTS: Critical constraint violation. System halted."
                ++ newline)]).
Proof. reflexivity. Qed.

(* ================================================================== *)
(** ** The validators *)

(** C1, as the code has it.  For every 32-bit [freq_hz] with
    80000000 <= freq_hz <= 200000000 the clock validator returns true and
    adds nothing to the trace.  For every [freq_hz] outside these bounds it
    calls the reporter exactly once, with the identifier 0x01; this
    identifier is fatal, so the reporter enters [ErrorHandler] and the
    validator never returns: whatever the fuel it is still spinning, and no
    [false] reaches the caller. *)
Theorem ValidateClockFrequency_spec (freq_hz : Z) (fuel : nat) (t : trace) :
  uint32 freq_hz ->
  (80000000 <= freq_hz <= 200000000 ->
   ConstraintsManager_ValidateClockFrequency freq_hz fuel t = (Returned true, t))
  /\ (freq_hz < 80000000 \/ 200000000 < freq_hz ->
      ConstraintsManager_ValidateClockFrequency freq_hz fuel t
      = (Spinning, (t ++ fatal_events 0x01 (clock_message freq_hz))%list)
      /\ count_reports (fatal_events 0x01 (clock_message freq_hz)) = 1%nat
      /\ count_reports_of 0x01 (fatal_events 0x01 (clock_message freq_hz)) = 1%nat).
Proof.
  intros _. split.
  - intros Hin. apply ValidateClockFrequency_in_range.
    now apply clock_out_of_range_false.
  - intros Hout. split; [|split; reflexivity].
    apply ValidateClockFrequency_out_of_range.
    now apply clock_out_of_range_true.
Qed.

Lemma ValidateClockFrequency_spec_witness :
  ConstraintsManager_ValidateClockFrequency 80000000 0%nat [] = (Returned true, [])
  /\ ConstraintsManager_ValidateClockFrequency 200000001 0%nat []
     = (Spinning, fatal_events 0x01 (clock_message 200000001)).
Proof.
  split.
  - apply (ValidateClockFrequency_spec 80000000 0%nat []).
    + unfold uint32, UINT32_MAX. lia.
    + lia.
  - apply (ValidateClockFrequency_spec 200000001 0%nat []).
    + unfold uint32, UINT32_MAX. lia.
    + lia.
Defined.

(** C1 fails as stated: 79999999 is a 32-bit value below the lower bound,
    and the clock validator does not return false on it, with any fuel. *)
Lemma ValidateClockFrequency_below_min_no_false :
  uint32 79999999
  /\ 79999999 < SYS_CLK_MIN_HZ
  /\ ~ (exists fuel t',
          ConstraintsManager_ValidateClockFrequency 79999999 fuel [] = (Returned false, t')).
Proof.
  split; [unfold uint32, UINT32_MAX; lia|].
  split; [unfold SYS_CLK_MIN_HZ; lia|].
  intros (fuel & t' & H).
  rewrite ValidateClockFrequency_out_of_range in H by reflexivity.
  discriminate H.
Qed.

(** C2, as the code has it.  For every 32-bit [address] with
    0x20000000 <= address <= 0x2001FFFF, both ends included, the RAM
    validator returns true and adds nothing to the trace.  For every
    [address] outside the window it calls the reporter exactly once, with
    the identifier 0x02; this identifier is fatal, so the reporter enters
    [ErrorHandler] and the validator never returns: no [false] reaches the
    caller. *)
Theorem ValidateRamAddress_spec (address : Z) (fuel : nat) (t : trace) :
  uint32 address ->
  (0x20000000 <= address <= 0x2001FFFF ->
   ConstraintsManager_ValidateRamAddress address fuel t = (Returned true, t))
  /\ (address < 0x20000000 \/ 0x2001FFFF < address ->
      ConstraintsManager_ValidateRamAddress address fuel t
      = (Spinning, (t ++ fatal_events 0x02 (ram_message address))%list)
      /\ count_reports (fatal_events 0x02 (ram_message address)) = 1%nat
      /\ count_reports_of 0x02 (fatal_events 0x02 (ram_message address)) = 1%nat).
Proof.
  intros _. split.
  - intros Hin. apply ValidateRamAddress_in_range.
    now apply ram_out_of_range_false.
  - intros Hout. split; [|split; reflexivity].
    apply ValidateRamAddress_out_of_range.
    now apply ram_out_of_range_true.
Qed.

Lemma ValidateRamAddress_spec_witness :
  ConstraintsManager_ValidateRamAddress 0x20000000 0%nat [] = (Returned true, [])
  /\ ConstraintsManager_ValidateRamAddress 0x2001FFFF 0%nat [] = (Returned true, [])
  /\ ConstraintsManager_ValidateRamAddress 0x1FFFFFFF 0%nat []
     = (Spinning, fatal_events 0x02 (ram_message 0x1FFFFFFF)).
Proof.
  split; [|split].
  - apply (ValidateRamAddress_spec 0x20000000 0%nat []).
    + unfold uint32, UINT32_MAX. lia.
    + lia.
  - apply (ValidateRamAddress_spec 0x2001FFFF 0%nat []).
    + unfold uint32, UINT32_MAX. lia.
    + lia.
  - apply (ValidateRamAddress_spec 0x1FFFFFFF 0%nat []).
    + unfold uint32, UINT32_MAX. lia.
    + lia.
Defined.

(** C2 fails as stated: 0x20020000 is the first address above the window,
    and the RAM validator does not return false on it, with any fuel. *)
Lemma ValidateRamAddress_above_window_no_false :
  uint32 0x20020000
  /\ RAM_END_ADDR < 0x20020000
  /\ ~ (exists fuel t',
          ConstraintsManager_ValidateRamAddress 0x20020000 fuel [] = (Returned false, t')).
Proof.
  split; [unfold uint32, UINT32_MAX; lia|].
  split; [unfold RAM_END_ADDR, RAM_START_ADDR, RAM_SIZE_BYTES; lia|].
  intros (fuel & t' & H).
  rewrite ValidateRamAddress_out_of_range in H by reflexivity.
  discriminate H.
Qed.

(* ================================================================== *)
(** ** The violation reporter and the error handler *)

(** C3.  For every 32-bit identifier and every message, the reporter first
    prints one line at severity ERROR; the line starts with
    "[ERROR] CONSTRAINTS: Violation ID 0x" followed by the identifier as two
    to eight capital hexadecimal digits that read back as the identifier.
    Then, when the identifier is 0x01 or 0x02, it enters [ErrorHandler] and
    the call never returns; for every other identifier the call returns and
    [ErrorHandler] is not entered. *)
Theorem ReportViolation_logs_then_escalates
  (constraint_id : Z) (error_message : string) (fuel : nat) (t : trace) :
  uint32 constraint_id ->
  String.prefix ("[ERROR] CONSTRAINTS: Violation ID 0x" ++ fmt_lX 2 constraint_id)
    (log_line "ERROR" (violation_text constraint_id error_message)) = true
  /\ (2 <= String.length (fmt_lX 2 constraint_id) <= 8)%nat
  /\ parse_base 16 (fmt_lX 2 constraint_id) = constraint_id
  /\ (constraint_id = 0x01 \/ constraint_id = 0x02 ->
      ConstraintsManager_ReportViolation constraint_id error_message fuel t
      = (Spinning,
         (t ++ [Enter_ReportViolation constraint_id error_message;
                Printf (log_line "ERROR" (violation_text constraint_id error_message));
                Enter_ErrorHandler constraint_id halt_message;
                Printf (log_line "FATAL" halt_message)])%list))
  /\ (constraint_id <> 0x01 /\ constraint_id <> 0x02 ->
      ConstraintsManager_ReportViolation constraint_id error_message fuel t
      = (Returned tt,
         (t ++ [Enter_ReportViolation constraint_id error_message;
                Printf (log_line "ERROR" (violation_text constraint_id error_message))])%list)).
Proof.
  intros Hid. split; [|split; [|split; [|split]]].
  - pose proof (length_fmt_lX_uint32 2 constraint_id Hid) as Hlen.
    change ("[ERROR] CONSTRAINTS: Violation ID 0x" ++ fmt_lX 2 constraint_id)
      with ("[ERROR] CONSTRAINTS: " ++ ("Violation ID 0x" ++ fmt_lX 2 constraint_id)).
    change (log_line "ERROR" (violation_text constraint_id error_message))
      with ("[ERROR] CONSTRAINTS: "
              ++ (violation_text constraint_id error_message ++ newline)).
    apply prefix_append_both, prefix_append_right.
    unfold violation_text, snprintf. rewrite <- append_assoc.
    apply prefix_truncate.
    rewrite length_append. cbn [String.length]. lia.
  - pose proof (length_fmt_lX_uint32 2 constraint_id Hid) as Hlen.
    change (Nat.max 2 8) with 8%nat in Hlen. exact Hlen.
  - now apply parse_fmt_lX.
  - intros Hfatal. apply ReportViolation_fatal. now apply is_fatal_true.
  - intros Hrec. apply ReportViolation_recoverable. now apply is_fatal_false.
Qed.

Lemma ReportViolation_logs_then_escalates_witness :
  ConstraintsManager_ReportViolation 0x02 "oob" 0%nat []
  = (Spinning,
     [Enter_ReportViolation 0x02 "oob";
      Printf (log_line "ERROR" (violation_text 0x02 "oob"));
      Enter_ErrorHandler 0x02 halt_message;
      Printf (log_line "FATAL" halt_message)])
  /\ ConstraintsManager_ReportViolation 0x03 "timeout" 0%nat []
     = (Returned tt,
        [Enter_ReportViolation 0x03 "timeout";
         Printf (log_line "ERROR" (violation_text 0x03 "timeout"))]).
Proof.
  split.
  - apply (ReportViolation_logs_then_escalates 0x02 "oob" 0%nat []).
    + unfold uint32, UINT32_MAX. lia.
    + right. reflexivity.
  - apply (ReportViolation_logs_then_escalates 0x03 "timeout" 0%nat []).
    + unfold uint32, UINT32_MAX. lia.
    + split; lia.
Defined.

(** C9.  [ErrorHandler] first prints its message at severity FATAL, the
    highest of the four the module uses: the text printed is
    "[FATAL] CONSTRAINTS: " followed by the message and a newline.  Then it
    never returns: whatever the fuel it is still spinning and has added
    nothing more to the trace, and nothing that follows the call in the
    caller is run.  For a caller that makes any sequence of calls of the
    interface: it ends up halted exactly when one of the calls reports a
    fatal violation; when it is halted the trace ends with the entry into
    [ErrorHandler] for a fatal identifier and the fatal line
    "[FATAL] CONSTRAINTS: Critical constraint violation. System halted.";
    and any calls added after a halted sequence change nothing, so there is
    no way back to the operational state. *)
Theorem ErrorHandler_halts_for_good :
  (forall violation_id message fuel t,
      ErrorHandler violation_id message fuel t
      = (Spinning,
         (t ++ [Enter_ErrorHandler violation_id message;
                Printf ("[FATAL] CONSTRAINTS: " ++ message ++ newline)])%list)
      /\ String.prefix "[FATAL] CONSTRAINTS: "
           ("[FATAL] CONSTRAINTS: " ++ message ++ newline) = true)
  /\ (forall violation_id message fuel t,
         ErrorHandler violation_id message fuel t
         = (Spinning,
            (t ++ [Enter_ErrorHandler violation_id message;
                   Printf (log_line "FATAL" message)])%list))
  /\ (forall (A : Type) violation_id message (k : unit -> call A) fuel t,
         (ErrorHandler violation_id message ;; k tt) fuel t
         = (Spinning,
            (t ++ [Enter_ErrorHandler violation_id message;
                   Printf ("[FATAL] CONSTRAINTS: " ++ message ++ newline)])%list))
  /\ (forall cs fuel t,
         mode_after (run_calls cs fuel t) = Halted <-> existsb fatal_call cs = true)
  /\ (forall cs fuel t,
         mode_after (run_calls cs fuel t) = Halted ->
         exists t0 id,
           is_fatal id = true
           /\ snd (run_calls cs fuel t)
              = (t0 ++ [Enter_ErrorHandler id
                          "Critical constraint violation. System halted.";
                        Printf ("[FATAL] CONSTRAINTS: Critical constraint violation. System halted."
                                  ++ newline)])%list)
  /\ (forall cs cs' fuel t,
         mode_after (run_calls cs fuel t) = Halted ->
         run_calls (cs ++ cs') fuel t = run_calls cs fuel t).
Proof.
  split; [|split; [|split; [|split; [|split]]]].
  - intros. split; [apply ErrorHandler_spins | apply prefix_append].
  - intros. apply ErrorHandler_spins.
  - intros. apply bind_spinning, ErrorHandler_spins.
  - intros. apply run_calls_halted_iff.
  - intros cs fuel t. apply run_calls_halted_in_ErrorHandler.
  - intros cs cs' fuel t. apply run_calls_halted_stays.
Qed.

Lemma ErrorHandler_halts_for_good_witness :
  existsb fatal_call [Call_Init; Call_ValidateRamAddress 0] = true
  /\ (exists t0 id,
         is_fatal id = true
         /\ snd (run_calls [Call_Init; Call_ValidateRamAddress 0] 3%nat [])
            = (t0 ++ [Enter_ErrorHandler id
                        "Critical constraint violation. System halted.";
                      Printf ("[FATAL] CONSTRAINTS: Critical constraint violation. System halted."
                                ++ newline)])%list)
  /\ run_calls ([Call_Init; Call_ValidateRamAddress 0]
                  ++ [Call_CheckCriticalResource 3]) 3%nat []
     = run_calls [Call_Init; Call_ValidateRamAddress 0] 3%nat [].
Proof.
  destruct ErrorHandler_halts_for_good as (_ & _ & _ & Hiff & Hlast & Hstay).
  split; [|split].
  - apply (Hiff [Call_Init; Call_ValidateRamAddress 0] 3%nat []). reflexivity.
  - apply (Hlast [Call_Init; Call_ValidateRamAddress 0] 3%nat []). reflexivity.
  - apply (Hstay [Call_Init; Call_ValidateRamAddress 0]
             [Call_CheckCriticalResource 3] 3%nat []).
    reflexivity.
Defined.

(* ================================================================== *)
(** ** The resource health checker and the initialisation *)

(** C4.  For every 32-bit [resource_id] other than 0x03 and 0x04, whatever
    the trace so far, the health checker prints one line at severity WARN
    and returns false; the reporter and [ErrorHandler] are not entered. *)
Theorem CheckCriticalResource_unknown_fails_closed
  (resource_id : Z) (fuel : nat) (t : trace) :
  uint32 resource_id ->
  resource_id <> 0x03 ->
  resource_id <> 0x04 ->
  ConstraintsManager_CheckCriticalResource resource_id fuel t
  = (Returned false,
     (t ++ [Printf (log_line "WARN" (unknown_resource_text resource_id))])%list)
  /\ String.prefix "[WARN] CONSTRAINTS: "
       (log_line "WARN" (unknown_resource_text resource_id)) = true
  /\ count_reports [Printf (log_line "WARN" (unknown_resource_text resource_id))] = 0%nat
  /\ count_escalations [Printf (log_line "WARN" (unknown_resource_text resource_id))]
     = 0%nat.
Proof.
  intros _ H3 H4. split; [|split; [|split]].
  - now apply CheckCriticalResource_unknown.
  - change (log_line "WARN" (unknown_resource_text resource_id))
      with ("[WARN] CONSTRAINTS: " ++ (unknown_resource_text resource_id ++ newline)).
    apply prefix_append.
  - reflexivity.
  - reflexivity.
Qed.

Lemma CheckCriticalResource_unknown_fails_closed_witness :
  ConstraintsManager_CheckCriticalResource 0xFF 0%nat []
  = (Returned false, [Printf (log_line "WARN" (unknown_resource_text 0xFF))]).
Proof.
  apply (CheckCriticalResource_unknown_fails_closed 0xFF 0%nat []).
  - unfold uint32, UINT32_MAX. lia.
  - lia.
  - lia.
Defined.

(** C6.  For the two resource kinds the code knows, sensor-timeout 0x03 and
    comm-buffer-full 0x04, the health checker prints one line at severity
    INFO and returns true, whatever the fuel and the trace so far. *)
Theorem CheckCriticalResource_known_healthy :
  forall fuel t,
    ConstraintsManager_CheckCriticalResource CONSTRAINT_ID_SENSOR_TIMEOUT fuel t
    = (Returned true, (t ++ [Printf (log_line "INFO" "Sensor check OK.")])%list)
    /\ ConstraintsManager_CheckCriticalResource CONSTRAINT_ID_COMM_BUFFER_FULL fuel t
       = (Returned true,
          (t ++ [Printf (log_line "INFO" "Communication buffer check OK.")])%list)
    /\ CONSTRAINT_ID_SENSOR_TIMEOUT = 0x03
    /\ CONSTRAINT_ID_COMM_BUFFER_FULL = 0x04.
Proof.
  intros fuel t. split; [|split; [|split]].
  - apply CheckCriticalResource_sensor.
  - apply CheckCriticalResource_comm_buffer.
  - reflexivity.
  - reflexivity.
Qed.

(** C10.  [ConstraintsManager_Init] always returns true.  The value it
    checks, SYS_CLK_MIN_HZ + 1000, is a 32-bit value inside the clock
    bounds, so the only line it prints is the one at severity INFO: the
    warning is never printed, and the reporter is not entered. *)
Theorem Init_always_true :
  forall fuel t,
    ConstraintsManager_Init fuel t
    = (Returned true,
       (t ++ [Printf (log_line "INFO" "Constraints module initialized.")])%list)
    /\ uint32 (SYS_CLK_MIN_HZ + 1000)
    /\ SYS_CLK_MIN_HZ <= SYS_CLK_MIN_HZ + 1000 <= SYS_CLK_MAX_HZ
    /\ ConstraintsManager_ValidateClockFrequency (SYS_CLK_MIN_HZ + 1000) fuel t
       = (Returned true, t).
Proof.
  intros fuel t. split; [|split; [|split]].
  - apply Init_returns_true.
  - unfold uint32, UINT32_MAX, SYS_CLK_MIN_HZ. lia.
  - unfold SYS_CLK_MIN_HZ, SYS_CLK_MAX_HZ. lia.
  - apply ValidateClockFrequency_in_range. reflexivity.
Qed.

(* ================================================================== *)
(** ** Failure paths, halting and statelessness *)

(** C5, as the code has it.  Each validator, on every 32-bit input outside
    its bounds, enters the reporter before anything else happens, and
    exactly once.  The health checker returns false exactly on the
    identifiers other than 0x03 and 0x04, and there it prints its warning
    itself: the reporter is not entered. *)
Theorem failure_paths_and_reporter :
  (forall freq_hz fuel t,
      uint32 freq_hz ->
      freq_hz < 80000000 \/ 200000000 < freq_hz ->
      exists rest,
        ConstraintsManager_ValidateClockFrequency freq_hz fuel t
        = (Spinning,
           (t ++ Enter_ReportViolation 0x01 (clock_message freq_hz) :: rest)%list)
        /\ count_reports (Enter_ReportViolation 0x01 (clock_message freq_hz) :: rest)
           = 1%nat)
  /\ (forall address fuel t,
         uint32 address ->
         address < 0x20000000 \/ 0x2001FFFF < address ->
         exists rest,
           ConstraintsManager_ValidateRamAddress address fuel t
           = (Spinning,
              (t ++ Enter_ReportViolation 0x02 (ram_message address) :: rest)%list)
           /\ count_reports (Enter_ReportViolation 0x02 (ram_message address) :: rest)
              = 1%nat)
  /\ (forall resource_id fuel t,
         uint32 resource_id ->
         (exists t',
             ConstraintsManager_CheckCriticalResource resource_id fuel t
             = (Returned false, t'))
         <-> resource_id <> 0x03 /\ resource_id <> 0x04)
  /\ (forall resource_id fuel t,
         uint32 resource_id ->
         resource_id <> 0x03 ->
         resource_id <> 0x04 ->
         ConstraintsManager_CheckCriticalResource resource_id fuel t
         = (Returned false,
            (t ++ [Printf (log_line "WARN" (unknown_resource_text resource_id))])%list)
         /\ count_reports
              [Printf (log_line "WARN" (unknown_resource_text resource_id))] = 0%nat).
Proof.
  split; [|split; [|split]].
  - intros f fuel t _ Hout. eexists. split.
    + apply ValidateClockFrequency_out_of_range. now apply clock_out_of_range_true.
    + reflexivity.
  - intros a fuel t _ Hout. eexists. split.
    + apply ValidateRamAddress_out_of_range. now apply ram_out_of_range_true.
    + reflexivity.
  - intros r fuel t _. split.
    + intros (t' & H). split; intros ->.
      * pose proof (CheckCriticalResource_sensor fuel t) as E.
        unfold CONSTRAINT_ID_SENSOR_TIMEOUT in E. rewrite E in H. discriminate H.
      * pose proof (CheckCriticalResource_comm_buffer fuel t) as E.
        unfold CONSTRAINT_ID_COMM_BUFFER_FULL in E. rewrite E in H. discriminate H.
    + intros [H3 H4]. eexists. now apply CheckCriticalResource_unknown.
  - intros r fuel t _ H3 H4. split; [|reflexivity].
    now apply CheckCriticalResource_unknown.
Qed.

Lemma failure_paths_and_reporter_witness :
  (exists rest,
      ConstraintsManager_ValidateClockFrequency 79999999 1%nat []
      = (Spinning, Enter_ReportViolation 0x01 (clock_message 79999999) :: rest)
      /\ count_reports (Enter_ReportViolation 0x01 (clock_message 79999999) :: rest)
         = 1%nat)
  /\ (exists rest,
         ConstraintsManager_ValidateRamAddress 0x20020000 1%nat []
         = (Spinning, Enter_ReportViolation 0x02 (ram_message 0x20020000) :: rest)
         /\ count_reports (Enter_ReportViolation 0x02 (ram_message 0x20020000) :: rest)
            = 1%nat)
  /\ (0xFF <> 0x03 /\ 0xFF <> 0x04)
  /\ ConstraintsManager_CheckCriticalResource 0xFF 1%nat []
     = (Returned false, [Printf (log_line "WARN" (unknown_resource_text 0xFF))]).
Proof.
  destruct failure_paths_and_reporter as (Hclk & Hram & Hiff & Hunk).
  split; [|split; [|split]].
  - apply (Hclk 79999999 1%nat []).
    + unfold uint32, UINT32_MAX. lia.
    + left. lia.
  - apply (Hram 0x20020000 1%nat []).
    + unfold uint32, UINT32_MAX. lia.
    + right. lia.
  - apply (Hiff 0xFF 1%nat []).
    + unfold uint32, UINT32_MAX. lia.
    + exists [Printf (log_line "WARN" (unknown_resource_text 0xFF))]. reflexivity.
  - apply (Hunk 0xFF 1%nat []).
    + unfold uint32, UINT32_MAX. lia.
    + lia.
    + lia.
Defined.

(** C5 fails as stated: on the 32-bit identifier 0xFF the health checker
    returns false and the reporter has not been entered. *)
Lemma CheckCriticalResource_fails_without_reporter :
  uint32 0xFF
  /\ exists evs,
      ConstraintsManager_CheckCriticalResource 0xFF 1%nat [] = (Returned false, evs)
      /\ count_reports evs = 0%nat.
Proof.
  split; [unfold uint32, UINT32_MAX; lia|].
  exists [Printf (log_line "WARN" (unknown_resource_text 0xFF))].
  split; reflexivity.
Qed.

(** C7.  The validators never themselves halt the system.  The body of a
    validator has no loop of its own: with any reporter that returns, it
    returns on every input, true inside the bounds and false, right after
    the reporter, outside them.  With the reporter of the module, for every
    32-bit input a call of a validator either returns a boolean to its
    caller or is halted inside [ErrorHandler], reached through the reporter:
    it returns true inside the bounds, and outside them the trace ends with
    the error line of the reporter, the entry into [ErrorHandler] and the
    line "[FATAL] CONSTRAINTS: Critical constraint violation. System
    halted.". *)
Theorem validators_halt_only_in_escalation :
  (forall report : Z -> string -> call unit,
      (forall id msg fuel t, exists t', report id msg fuel t = (Returned tt, t')) ->
      forall x fuel t,
        (exists b t', ValidateClockFrequency_body report x fuel t = (Returned b, t'))
        /\ (exists b t', ValidateRamAddress_body report x fuel t = (Returned b, t'))
        /\ (80000000 <= x <= 200000000 ->
            ValidateClockFrequency_body report x fuel t = (Returned true, t))
        /\ (x < 80000000 \/ 200000000 < x ->
            exists t',
              report 0x01 (clock_message x) fuel t = (Returned tt, t')
              /\ ValidateClockFrequency_body report x fuel t = (Returned false, t'))
        /\ (0x20000000 <= x <= 0x2001FFFF ->
            ValidateRamAddress_body report x fuel t = (Returned true, t))
        /\ (x < 0x20000000 \/ 0x2001FFFF < x ->
            exists t',
              report 0x02 (ram_message x) fuel t = (Returned tt, t')
              /\ ValidateRamAddress_body report x fuel t = (Returned false, t')))
  /\ (forall freq_hz fuel t,
         uint32 freq_hz ->
         (80000000 <= freq_hz <= 200000000 ->
          ConstraintsManager_ValidateClockFrequency freq_hz fuel t = (Returned true, t))
         /\ (freq_hz < 80000000 \/ 200000000 < freq_hz ->
             ConstraintsManager_ValidateClockFrequency freq_hz fuel t
             = (Spinning,
                ((t ++ [Enter_ReportViolation 0x01 (clock_message freq_hz);
                        Printf (log_line "ERROR"
                                  (violation_text 0x01 (clock_message freq_hz)))])
                   ++ [Enter_ErrorHandler 0x01 halt_message;
                       Printf (log_line "FATAL" halt_message)])%list)))
  /\ (forall address fuel t,
         uint32 address ->
         (0x20000000 <= address <= 0x2001FFFF ->
          ConstraintsManager_ValidateRamAddress address fuel t = (Returned true, t))
         /\ (address < 0x20000000 \/ 0x2001FFFF < address ->
             ConstraintsManager_ValidateRamAddress address fuel t
             = (Spinning,
                ((t ++ [Enter_ReportViolation 0x02 (ram_message address);
                        Printf (log_line "ERROR"
                                  (violation_text 0x02 (ram_message address)))])
                   ++ [Enter_ErrorHandler 0x02 halt_message;
                       Printf (log_line "FATAL" halt_message)])%list)))
  /\ (forall freq_hz fuel t,
         uint32 freq_hz ->
         (exists b, ConstraintsManager_ValidateClockFrequency freq_hz fuel t
                    = (Returned b, t))
         \/ (exists t0,
                ConstraintsManager_ValidateClockFrequency freq_hz fuel t
                = (Spinning,
                   (t0 ++ [Enter_ErrorHandler 0x01
                             "Critical constraint violation. System halted.";
                           Printf ("[FATAL] CONSTRAINTS: Critical constraint violation. System halted."
                                     ++ newline)])%list)))
  /\ (forall address fuel t,
         uint32 address ->
         (exists b, ConstraintsManager_ValidateRamAddress address fuel t
                    = (Returned b, t))
         \/ (exists t0,
                ConstraintsManager_ValidateRamAddress address fuel t
                = (Spinning,
                   (t0 ++ [Enter_ErrorHandler 0x02
                             "Critical constraint violation. System halted.";
                           Printf ("[FATAL] CONSTRAINTS: Critical constraint violation. System halted."
                                     ++ newline)])%list))).
Proof.
  split; [|split; [|split; [|split]]].
  - intros report Hret x fuel t.
    assert (Hclk_in : 80000000 <= x <= 200000000 ->
                      ValidateClockFrequency_body report x fuel t = (Returned true, t)).
    { intros Hin. apply ValidateClockFrequency_body_in_range.
      now apply clock_out_of_range_false. }
    assert (Hclk_out : x < 80000000 \/ 200000000 < x ->
                       exists t',
                         report 0x01 (clock_message x) fuel t = (Returned tt, t')
                         /\ ValidateClockFrequency_body report x fuel t
                            = (Returned false, t')).
    { intros Hout. apply clock_out_of_range_true in Hout.
      destruct (Hret 0x01 (clock_message x) fuel t) as (t' & E).
      exists t'. split; [exact E|].
      rewrite ValidateClockFrequency_body_out_of_range by exact Hout.
      unfold bind, CONSTRAINT_ID_SYS_CLK_RANGE. now rewrite E. }
    assert (Hram_in : 0x20000000 <= x <= 0x2001FFFF ->
                      ValidateRamAddress_body report x fuel t = (Returned true, t)).
    { intros Hin. apply ValidateRamAddress_body_in_range.
      now apply ram_out_of_range_false. }
    assert (Hram_out : x < 0x20000000 \/ 0x2001FFFF < x ->
                       exists t',
                         report 0x02 (ram_message x) fuel t = (Returned tt, t')
                         /\ ValidateRamAddress_body report x fuel t
                            = (Returned false, t')).
    { intros Hout. apply ram_out_of_range_true in Hout.
      destruct (Hret 0x02 (ram_message x) fuel t) as (t' & E).
      exists t'. split; [exact E|].
      rewrite ValidateRamAddress_body_out_of_range by exact Hout.
      unfold bind, CONSTRAINT_ID_RAM_ACCESS_OOB. now rewrite E. }
    split; [|split; [|split; [|split; [|split]]]]; try assumption.
    + destruct (Z_le_gt_dec 80000000 x) as [Hlo|Hlo];
        [destruct (Z_le_gt_dec x 200000000) as [Hhi|Hhi]|].
      * exists true, t. apply Hclk_in. lia.
      * destruct Hclk_out as (t' & _ & E); [lia|]. now exists false, t'.
      * destruct Hclk_out as (t' & _ & E); [lia|]. now exists false, t'.
    + destruct (Z_le_gt_dec 0x20000000 x) as [Hlo|Hlo];
        [destruct (Z_le_gt_dec x 0x2001FFFF) as [Hhi|Hhi]|].
      * exists true, t. apply Hram_in. lia.
      * destruct Hram_out as (t' & _ & E); [lia|]. now exists false, t'.
      * destruct Hram_out as (t' & _ & E); [lia|]. now exists false, t'.
  - intros f fuel t _. split.
    + intros Hin. apply ValidateClockFrequency_in_range.
      now apply clock_out_of_range_false.
    + intros Hout. rewrite <- fatal_events_end.
      apply ValidateClockFrequency_out_of_range. now apply clock_out_of_range_true.
  - intros a fuel t _. split.
    + intros Hin. apply ValidateRamAddress_in_range.
      now apply ram_out_of_range_false.
    + intros Hout. rewrite <- fatal_events_end.
      apply ValidateRamAddress_out_of_range. now apply ram_out_of_range_true.
  - intros f fuel t _. destruct (clock_out_of_range f) eqn:Hf.
    + right. eexists.
      rewrite ValidateClockFrequency_out_of_range by exact Hf.
      rewrite fatal_events_end. reflexivity.
    + left. exists true. now apply ValidateClockFrequency_in_range.
  - intros a fuel t _. destruct (ram_out_of_range a) eqn:Ha.
    + right. eexists.
      rewrite ValidateRamAddress_out_of_range by exact Ha.
      rewrite fatal_events_end. reflexivity.
    + left. exists true. now apply ValidateRamAddress_in_range.
Qed.

Lemma validators_halt_only_in_escalation_witness :
  (exists t',
      ValidateClockFrequency_body (fun id msg => emit (Enter_ReportViolation id msg))
        0 1%nat [] = (Returned false, t'))
  /\ ConstraintsManager_ValidateClockFrequency 200000000 1%nat [] = (Returned true, [])
  /\ ConstraintsManager_ValidateRamAddress UINT32_MAX 1%nat []
     = (Spinning,
        [Enter_ReportViolation 0x02 (ram_message UINT32_MAX);
         Printf (log_line "ERROR" (violation_text 0x02 (ram_message UINT32_MAX)));
         Enter_ErrorHandler 0x02 halt_message;
         Printf (log_line "FATAL" halt_message)])
  /\ ((exists b, ConstraintsManager_ValidateClockFrequency 0 1%nat [] = (Returned b, []))
      \/ (exists t0,
             ConstraintsManager_ValidateClockFrequency 0 1%nat []
             = (Spinning,
                (t0 ++ [Enter_ErrorHandler 0x01
                          "Critical constraint violation. System halted.";
                        Printf ("[FATAL] CONSTRAINTS: Critical constraint violation. System halted."
                                  ++ newline)])%list))).
Proof.
  destruct validators_halt_only_in_escalation as (Hbody & Hclk & Hram & Hany & _).
  assert (Hret : forall id msg fuel t,
             exists t', emit (Enter_ReportViolation id msg) fuel t = (Returned tt, t')).
  { intros id msg fuel t. exists (t ++ [Enter_ReportViolation id msg])%list.
    reflexivity. }
  destruct (Hbody (fun id msg => emit (Enter_ReportViolation id msg)) Hret 0 1%nat [])
    as (_ & _ & _ & Hout & _ & _).
  split; [|split; [|split]].
  - destruct Hout as (t' & _ & E); [left; lia|]. exists t'. exact E.
  - apply (Hclk 200000000 1%nat []).
    + unfold uint32, UINT32_MAX. lia.
    + lia.
  - apply (Hram UINT32_MAX 1%nat []).
    + unfold uint32, UINT32_MAX. lia.
    + right. unfold UINT32_MAX. lia.
  - apply (Hany 0 1%nat []). unfold uint32, UINT32_MAX. lia.
Defined.

(** C8, as the code has it.  What a call of a validator or of the health
    checker does is fixed by its input: the outcome (the boolean returned,
    or the halt) and the events it adds are the same whatever the trace so
    far and whatever the fuel, so nothing is carried from one call to the
    next.  Made twice in a row with the same input, a call of the health
    checker returns the same boolean both times, and so does a call of a
    validator on an input inside its bounds.  On an input outside its
    bounds the first call of a validator never returns: no boolean is
    yielded, and a second call, with the same or with another input, is
    never made.  After a call that returned, a second call does what it
    does on its own. *)
Theorem validation_is_stateless :
  (forall freq_hz, exists r evs, forall fuel t,
        ConstraintsManager_ValidateClockFrequency freq_hz fuel t = (r, (t ++ evs)%list))
  /\ (forall address, exists r evs, forall fuel t,
           ConstraintsManager_ValidateRamAddress address fuel t = (r, (t ++ evs)%list))
  /\ (forall resource_id, exists r evs, forall fuel t,
           ConstraintsManager_CheckCriticalResource resource_id fuel t
           = (r, (t ++ evs)%list))
  /\ (forall freq_hz fuel t,
         fst (twice (ConstraintsManager_ValidateClockFrequency freq_hz) fuel t)
         = if clock_out_of_range freq_hz then Spinning else Returned true)
  /\ (forall address fuel t,
         fst (twice (ConstraintsManager_ValidateRamAddress address) fuel t)
         = if ram_out_of_range address then Spinning else Returned true)
  /\ (forall resource_id fuel t,
         fst (twice (ConstraintsManager_CheckCriticalResource resource_id) fuel t)
         = Returned true)
  /\ (forall x y fuel t,
         (ConstraintsManager_ValidateClockFrequency x ;;
          ConstraintsManager_ValidateClockFrequency y) fuel t
         = if clock_out_of_range x
           then ConstraintsManager_ValidateClockFrequency x fuel t
           else ConstraintsManager_ValidateClockFrequency y fuel t)
  /\ (forall x y fuel t,
         (ConstraintsManager_ValidateRamAddress x ;;
          ConstraintsManager_ValidateRamAddress y) fuel t
         = if ram_out_of_range x
           then ConstraintsManager_ValidateRamAddress x fuel t
           else ConstraintsManager_ValidateRamAddress y fuel t)
  /\ (forall x y fuel t,
         fst ((ConstraintsManager_CheckCriticalResource x ;;
               ConstraintsManager_CheckCriticalResource y) fuel t)
         = Returned ((y =? 0x03) || (y =? 0x04))).
Proof.
  split; [|split; [|split; [|split; [|split; [|split; [|split; [|split]]]]]]].
  - intros f. destruct (clock_out_of_range f) eqn:Hf.
    + eexists _, _. intros fuel t.
      now apply ValidateClockFrequency_out_of_range.
    + exists (Returned true), []. intros fuel t. rewrite app_nil_r.
      now apply ValidateClockFrequency_in_range.
  - intros a. destruct (ram_out_of_range a) eqn:Ha.
    + eexists _, _. intros fuel t.
      now apply ValidateRamAddress_out_of_range.
    + exists (Returned true), []. intros fuel t. rewrite app_nil_r.
      now apply ValidateRamAddress_in_range.
  - intros r.
    destruct (Z.eq_dec r 3) as [->|H3]; [|destruct (Z.eq_dec r 4) as [->|H4]].
    + eexists _, _. intros fuel t. apply CheckCriticalResource_sensor.
    + eexists _, _. intros fuel t. apply CheckCriticalResource_comm_buffer.
    + eexists _, _. intros fuel t. now apply CheckCriticalResource_unknown.
  - intros f fuel t. unfold twice. destruct (clock_out_of_range f) eqn:Hf.
    + unfold bind. now rewrite ValidateClockFrequency_out_of_range by exact Hf.
    + unfold bind. now rewrite !ValidateClockFrequency_in_range by exact Hf.
  - intros a fuel t. unfold twice. destruct (ram_out_of_range a) eqn:Ha.
    + unfold bind. now rewrite ValidateRamAddress_out_of_range by exact Ha.
    + unfold bind. now rewrite !ValidateRamAddress_in_range by exact Ha.
  - intros r fuel t. unfold twice, bind.
    destruct (Z.eq_dec r 3) as [->|H3]; [|destruct (Z.eq_dec r 4) as [->|H4]].
    + reflexivity.
    + reflexivity.
    + now rewrite !CheckCriticalResource_unknown by assumption.
  - intros x y fuel t. unfold bind. destruct (clock_out_of_range x) eqn:Hx.
    + now rewrite ValidateClockFrequency_out_of_range by exact Hx.
    + now rewrite (ValidateClockFrequency_in_range x) by exact Hx.
  - intros x y fuel t. unfold bind. destruct (ram_out_of_range x) eqn:Hx.
    + now rewrite ValidateRamAddress_out_of_range by exact Hx.
    + now rewrite (ValidateRamAddress_in_range x) by exact Hx.
  - intros x y fuel t.
    destruct (run_call_safe (Call_CheckCriticalResource x) eq_refl) as (evs & _ & Ex).
    assert (Hx : exists b, ConstraintsManager_CheckCriticalResource x fuel t
                           = (Returned b, (t ++ evs)%list)).
    { specialize (Ex fuel t). cbn [run_call] in Ex. unfold bind in Ex.
      destruct (ConstraintsManager_CheckCriticalResource x fuel t) as [[b|] t'];
        [|discriminate Ex].
      exists b. unfold ret in Ex. now inversion Ex. }
    destruct Hx as (b & Hx). unfold bind. rewrite Hx.
    destruct (Z.eq_dec y 3) as [->|H3]; [|destruct (Z.eq_dec y 4) as [->|H4]].
    + reflexivity.
    + reflexivity.
    + rewrite CheckCriticalResource_unknown by assumption.
      apply Z.eqb_neq in H3, H4. cbn [fst]. now rewrite H3, H4.
Qed.

(** C8 fails as stated: 0 is a 32-bit frequency, and two calls of the clock
    validator on it in a row yield no pair of booleans, with any fuel; nor
    does a call on 0 followed by a call on the value 100000000, which the
    validator accepts on its own. *)
Lemma validator_second_call_never_made :
  uint32 0
  /\ uint32 100000000
  /\ ConstraintsManager_ValidateClockFrequency 100000000 1%nat [] = (Returned true, [])
  /\ ~ (exists fuel b1 b2 t',
          (b1' <- ConstraintsManager_ValidateClockFrequency 0 ;;
           b2' <- ConstraintsManager_ValidateClockFrequency 0 ;;
           ret (b1', b2')) fuel [] = (Returned (b1, b2), t'))
  /\ ~ (exists fuel b t',
          (ConstraintsManager_ValidateClockFrequency 0 ;;
           ConstraintsManager_ValidateClockFrequency 100000000) fuel []
          = (Returned b, t')).
Proof.
  split; [unfold uint32, UINT32_MAX; lia|].
  split; [unfold uint32, UINT32_MAX; lia|].
  split; [reflexivity|].
  split.
  - intros (fuel & b1 & b2 & t' & H). unfold bind in H.
    rewrite ValidateClockFrequency_out_of_range in H by reflexivity.
    discriminate H.
  - intros (fuel & b & t' & H). unfold bind in H.
    rewrite ValidateClockFrequency_out_of_range in H by reflexivity.
    discriminate H.
Qed.

(* ================================================================== *)
(** ** The buffers of the messages *)

Lemma length_truncate (n : nat) :
  forall s, String.length (truncate n s) = Nat.min n (String.length s).
Proof.
  induction n as [|n IH]; intros s; [reflexivity|].
  destruct s as [|c s]; [reflexivity|]. cbn [truncate String.length].
  rewrite IH. reflexivity.
Qed.

Lemma truncate_fits (n : nat) :
  forall s, (String.length s <= n)%nat -> truncate n s = s.
Proof.
  induction n as [|n IH]; intros s Hlen.
  - destruct s; [reflexivity | simpl in Hlen; lia].
  - destruct s as [|c s]; [reflexivity|]. cbn [truncate].
    rewrite IH; [reflexivity | simpl in Hlen; lia].
Qed.

Lemma truncate_append (p : string) :
  forall n s,
    (String.length p <= n)%nat ->
    truncate n (p ++ s) = p ++ truncate (n - String.length p) s.
Proof.
  induction p as [|c p IH]; intros n s Hlen.
  - cbn [append String.length]. now rewrite Nat.sub_0_r.
  - destruct n as [|n]; [simpl in Hlen; lia|].
    cbn [append truncate String.length]. rewrite IH by (simpl in Hlen; lia).
    reflexivity.
Qed.

Lemma prefix_truncate_self (n : nat) :
  forall s, String.prefix (truncate n s) s = true.
Proof.
  induction n as [|n IH]; intros s.
  - destruct s; reflexivity.
  - destruct s as [|c s]; [reflexivity|]. cbn [truncate]. simpl.
    destruct (ascii_dec c c) as [_|Hne]; [apply IH | now elim Hne].
Qed.

Lemma length_to_base_lower (base : Z) (fuel : nat) :
  forall n acc,
    (String.length acc <= String.length (to_base base fuel n acc))%nat.
Proof.
  induction fuel as [|fuel IH]; intros n acc; cbn [to_base]; [lia|].
  destruct (n / base =? 0).
  - cbn [String.length]. lia.
  - specialize (IH (n / base) (String (digit_char (n mod base)) acc)).
    cbn [String.length] in IH. lia.
Qed.

Lemma to_base_nonempty (base : Z) (fuel : nat) (n : Z) :
  (1 <= String.length (to_base base (S fuel) n ""))%nat.
Proof.
  cbn [to_base]. destruct (n / base =? 0).
  - cbn [String.length]. lia.
  - pose proof (length_to_base_lower base fuel (n / base)
                  (String (digit_char (n mod base)) "")) as H.
    cbn [String.length] in H. lia.
Qed.

Lemma length_fmt_lu_uint32 (n : Z) :
  uint32 n -> (1 <= String.length (fmt_lu n) <= 10)%nat.
Proof.
  intros [Hlo Hhi]. unfold UINT32_MAX in Hhi. unfold fmt_lu. split.
  - apply (to_base_nonempty 10 31 n).
  - pose proof (length_to_base_tight 10 ltac:(lia) 32 n "" 10%nat ltac:(lia)) as H.
    change (10 ^ Z.of_nat 10) with 10000000000 in H.
    change (String.length "") with 0%nat in H.
    specialize (H ltac:(lia)). lia.
Qed.

(** The text of the clock validator fits its buffer of 128 bytes. *)
Lemma clock_message_full (freq_hz : Z) :
  uint32 freq_hz ->
  clock_message freq_hz
  = "Clock frequency " ++ fmt_lu freq_hz
      ++ " Hz is out of bounds [80000000 - 200000000] Hz."
  /\ (String.length (clock_message freq_hz) <= 73)%nat.
Proof.
  intros Hf. pose proof (length_fmt_lu_uint32 freq_hz Hf) as Hlen.
  assert (E : clock_message freq_hz
              = "Clock frequency " ++ fmt_lu freq_hz
                  ++ " Hz is out of bounds [80000000 - 200000000] Hz.").
  { unfold clock_message, snprintf.
    change (fmt_lu SYS_CLK_MIN_HZ) with "80000000".
    change (fmt_lu SYS_CLK_MAX_HZ) with "200000000".
    apply truncate_fits. rewrite !length_append.
    cbn [String.length Nat.sub]. lia. }
  split; [exact E|]. rewrite E, !length_append. cbn [String.length]. lia.
Qed.

(** The text of the RAM validator fits its buffer of 128 bytes, and always
    has 72 characters. *)
Lemma ram_message_full (address : Z) :
  uint32 address ->
  ram_message address
  = "Memory access 0x" ++ fmt_lX 8 address
      ++ " is outside RAM range [0x20000000 - 0x2001FFFF]."
  /\ String.length (ram_message address) = 72%nat.
Proof.
  intros Ha. pose proof (length_fmt_lX_uint32 8 address Ha) as Hlen.
  change (Nat.max 8 8) with 8%nat in Hlen.
  assert (E : ram_message address
              = "Memory access 0x" ++ fmt_lX 8 address
                  ++ " is outside RAM range [0x20000000 - 0x2001FFFF].").
  { unfold ram_message, snprintf.
    change (fmt_lX 8 RAM_START_ADDR) with "20000000".
    change (fmt_lX 8 RAM_END_ADDR) with "2001FFFF".
    apply truncate_fits. rewrite !length_append.
    cbn [String.length Nat.sub]. lia. }
  split; [exact E|]. rewrite E, !length_append. cbn [String.length]. lia.
Qed.

(** A message of at most 230 characters is not cut by the buffer of the
    reporter. *)
Lemma violation_text_full (constraint_id : Z) (error_message : string) :
  uint32 constraint_id ->
  (String.length error_message <= 230)%nat ->
  violation_text constraint_id error_message
  = "Violation ID 0x" ++ fmt_lX 2 constraint_id ++ ": " ++ error_message.
Proof.
  intros Hid Hmsg. pose proof (length_fmt_lX_uint32 2 constraint_id Hid) as Hlen.
  change (Nat.max 2 8) with 8%nat in Hlen.
  unfold violation_text, snprintf. apply truncate_fits.
  rewrite !length_append. cbn [String.length Nat.sub]. lia.
Qed.

(** X1.  For every 32-bit clock frequency outside the bounds, neither the
    128-byte buffer of the validator nor the 256-byte buffer of the reporter
    cuts the text: the reporter receives the whole message, with the
    frequency in decimal digits that read back as the frequency, and the
    line printed at severity ERROR carries that message whole. *)
Theorem clock_violation_logged_in_full (freq_hz : Z) (fuel : nat) (t : trace) :
  uint32 freq_hz ->
  freq_hz < 80000000 \/ 200000000 < freq_hz ->
  ConstraintsManager_ValidateClockFrequency freq_hz fuel t
  = (Spinning,
     (t ++ [Enter_ReportViolation 0x01
              ("Clock frequency " ++ fmt_lu freq_hz
                 ++ " Hz is out of bounds [80000000 - 200000000] Hz.");
            Printf ("[ERROR] CONSTRAINTS: Violation ID 0x01: Clock frequency "
                      ++ fmt_lu freq_hz
                      ++ " Hz is out of bounds [80000000 - 200000000] Hz."
                      ++ newline);
            Enter_ErrorHandler 0x01 halt_message;
            Printf (log_line "FATAL" halt_message)])%list)
  /\ (1 <= String.length (fmt_lu freq_hz) <= 10)%nat
  /\ parse_base 10 (fmt_lu freq_hz) = freq_hz.
Proof.
  intros Hf Hout. split; [|split].
  - rewrite ValidateClockFrequency_out_of_range
      by (now apply clock_out_of_range_true).
    destruct (clock_message_full freq_hz Hf) as [E Hlen].
    unfold fatal_events.
    rewrite (violation_text_full CONSTRAINT_ID_SYS_CLK_RANGE (clock_message freq_hz))
      by (try (unfold uint32, UINT32_MAX, CONSTRAINT_ID_SYS_CLK_RANGE); lia).
    rewrite E.
    change (fmt_lX 2 CONSTRAINT_ID_SYS_CLK_RANGE) with "01".
    unfold log_line. rewrite !append_assoc. reflexivity.
  - now apply length_fmt_lu_uint32.
  - now apply parse_fmt_lu.
Qed.

Lemma clock_violation_logged_in_full_witness :
  ConstraintsManager_ValidateClockFrequency UINT32_MAX 2%nat []
  = (Spinning,
     [Enter_ReportViolation 0x01
        "Clock frequency 4294967295 Hz is out of bounds [80000000 - 200000000] Hz.";
      Printf ("[ERROR] CONSTRAINTS: Violation ID 0x01: Clock frequency 4294967295 Hz is out of bounds [80000000 - 200000000] Hz."
                ++ newline);
      Enter_ErrorHandler 0x01 halt_message;
      Printf (log_line "FATAL" halt_message)]).
Proof.
  apply (clock_violation_logged_in_full UINT32_MAX 2%nat []).
  - unfold uint32, UINT32_MAX. lia.
  - right. unfold UINT32_MAX. lia.
Defined.

(** X2.  For every 32-bit address outside the RAM window, no buffer cuts
    the text: the message has exactly 72 characters, the address is printed
    as exactly eight hexadecimal digits that read back as the address, and
    the line printed at severity ERROR carries the message whole. *)
Theorem ram_violation_logged_in_full (address : Z) (fuel : nat) (t : trace) :
  uint32 address ->
  address < 0x20000000 \/ 0x2001FFFF < address ->
  ConstraintsManager_ValidateRamAddress address fuel t
  = (Spinning,
     (t ++ [Enter_ReportViolation 0x02
              ("Memory access 0x" ++ fmt_lX 8 address
                 ++ " is outside RAM range [0x20000000 - 0x2001FFFF].");
            Printf ("[ERROR] CONSTRAINTS: Violation ID 0x02: Memory access 0x"
                      ++ fmt_lX 8 address
                      ++ " is outside RAM range [0x20000000 - 0x2001FFFF]."
                      ++ newline);
            Enter_ErrorHandler 0x02 halt_message;
            Printf (log_line "FATAL" halt_message)])%list)
  /\ String.length
       ("Memory access 0x" ++ fmt_lX 8 address
          ++ " is outside RAM range [0x20000000 - 0x2001FFFF].") = 72%nat
  /\ String.length (fmt_lX 8 address) = 8%nat
  /\ parse_base 16 (fmt_lX 8 address) = address.
Proof.
  intros Ha Hout. destruct (ram_message_full address Ha) as [E Hlen].
  split; [|split; [|split]].
  - rewrite ValidateRamAddress_out_of_range
      by (now apply ram_out_of_range_true).
    unfold fatal_events.
    rewrite (violation_text_full CONSTRAINT_ID_RAM_ACCESS_OOB (ram_message address))
      by (try (unfold uint32, UINT32_MAX, CONSTRAINT_ID_RAM_ACCESS_OOB); lia).
    rewrite E.
    change (fmt_lX 2 CONSTRAINT_ID_RAM_ACCESS_OOB) with "02".
    unfold log_line. rewrite !append_assoc. reflexivity.
  - rewrite <- E. exact Hlen.
  - pose proof (length_fmt_lX_uint32 8 address Ha) as H.
    change (Nat.max 8 8) with 8%nat in H. lia.
  - now apply parse_fmt_lX.
Qed.

Lemma ram_violation_logged_in_full_witness :
  ConstraintsManager_ValidateRamAddress 0 2%nat []
  = (Spinning,
     [Enter_ReportViolation 0x02
        "Memory access 0x00000000 is outside RAM range [0x20000000 - 0x2001FFFF].";
      Printf ("[ERROR] CONSTRAINTS: Violation ID 0x02: Memory access 0x00000000 is outside RAM range [0x20000000 - 0x2001FFFF]."
                ++ newline);
      Enter_ErrorHandler 0x02 halt_message;
      Printf (log_line "FATAL" halt_message)]).
Proof.
  apply (ram_violation_logged_in_full 0 2%nat []).
  - unfold uint32, UINT32_MAX. lia.
  - left. lia.
Defined.

(** X3.  For every 32-bit resource identifier other than 0x03 and 0x04 the
    warning of the health checker is not cut by its 64-byte buffer: the
    line printed is the whole text, at most 41 characters long before the
    line prefix, and the identifier in it reads back as the identifier. *)
Theorem unknown_resource_warning_in_full (resource_id : Z) (fuel : nat) (t : trace) :
  uint32 resource_id ->
  resource_id <> 0x03 ->
  resource_id <> 0x04 ->
  ConstraintsManager_CheckCriticalResource resource_id fuel t
  = (Returned false,
     (t ++ [Printf ("[WARN] CONSTRAINTS: Unknown resource ID 0x"
                      ++ fmt_lX 2 resource_id ++ " for check." ++ newline)])%list)
  /\ (String.length
        ("Unknown resource ID 0x" ++ fmt_lX 2 resource_id ++ " for check.") <= 41)%nat
  /\ parse_base 16 (fmt_lX 2 resource_id) = resource_id.
Proof.
  intros Hid H3 H4. pose proof (length_fmt_lX_uint32 2 resource_id Hid) as Hlen.
  change (Nat.max 2 8) with 8%nat in Hlen.
  assert (Hfit : (String.length
                    ("Unknown resource ID 0x" ++ fmt_lX 2 resource_id ++ " for check.")
                  <= 41)%nat).
  { rewrite !length_append. cbn [String.length]. lia. }
  split; [|split].
  - rewrite CheckCriticalResource_unknown by assumption.
    unfold unknown_resource_text, snprintf.
    rewrite truncate_fits by (cbn [Nat.sub]; lia).
    unfold log_line. rewrite !append_assoc. reflexivity.
  - exact Hfit.
  - now apply parse_fmt_lX.
Qed.

Lemma unknown_resource_warning_in_full_witness :
  ConstraintsManager_CheckCriticalResource UINT32_MAX 0%nat []
  = (Returned false,
     [Printf ("[WARN] CONSTRAINTS: Unknown resource ID 0xFFFFFFFF for check."
                ++ newline)]).
Proof.
  apply (unknown_resource_warning_in_full UINT32_MAX 0%nat []).
  - unfold uint32, UINT32_MAX. lia.
  - unfold UINT32_MAX. lia.
  - unfold UINT32_MAX. lia.
Defined.

(** X4.  The text the reporter prints never exceeds the 255 characters its
    buffer holds: its length is the smaller of 255 and the length of the
    whole text, it is always a prefix of the whole text, and it is the whole
    text when the message has at most 230 characters. *)
Theorem ReportViolation_text_bounded (constraint_id : Z) (error_message : string) :
  uint32 constraint_id ->
  String.length (violation_text constraint_id error_message)
  = Nat.min 255
      (15 + String.length (fmt_lX 2 constraint_id) + 2 + String.length error_message)
  /\ String.prefix (violation_text constraint_id error_message)
       ("Violation ID 0x" ++ fmt_lX 2 constraint_id ++ ": " ++ error_message) = true
  /\ ((String.length error_message <= 230)%nat ->
      violation_text constraint_id error_message
      = "Violation ID 0x" ++ fmt_lX 2 constraint_id ++ ": " ++ error_message)
  /\ (forall fuel t,
         exists o rest,
           ConstraintsManager_ReportViolation constraint_id error_message fuel t
           = (o,
              (t ++ Enter_ReportViolation constraint_id error_message
                 :: Printf (log_line "ERROR"
                              (violation_text constraint_id error_message))
                 :: rest)%list)).
Proof.
  intros Hid. split; [|split; [|split]].
  - unfold violation_text, snprintf. rewrite length_truncate, !length_append.
    cbn [String.length Nat.sub]. lia.
  - unfold violation_text, snprintf. apply prefix_truncate_self.
  - intros Hmsg. now apply violation_text_full.
  - intros fuel t. destruct (is_fatal constraint_id) eqn:Hf.
    + eexists _, _. now apply ReportViolation_fatal.
    + exists (Returned tt), []. now apply ReportViolation_recoverable.
Qed.

Lemma ReportViolation_text_bounded_witness :
  String.length (violation_text 0x03 "Sensor communication timed out.") = 50%nat
  /\ violation_text 0x03 "Sensor communication timed out."
     = "Violation ID 0x" ++ fmt_lX 2 0x03 ++ ": " ++ "Sensor communication timed out.".
Proof.
  split.
  - apply (ReportViolation_text_bounded 0x03 "Sensor communication timed out.").
    unfold uint32, UINT32_MAX. lia.
  - apply (ReportViolation_text_bounded 0x03 "Sensor communication timed out.").
    + unfold uint32, UINT32_MAX. lia.
    + vm_compute. lia.
Defined.

(* ================================================================== *)
(** ** What the health checker and the reporter never do *)

(** X5.  The health checker returns on every identifier, those the reporter
    treats as fatal (0x01 and 0x02) included: it prints exactly one line,
    enters neither the reporter nor [ErrorHandler], and its result is true
    exactly for the identifiers 0x03 and 0x04. *)
Theorem CheckCriticalResource_always_returns :
  forall resource_id fuel t,
  exists text,
    ConstraintsManager_CheckCriticalResource resource_id fuel t
    = (Returned ((resource_id =? 0x03) || (resource_id =? 0x04)),
       (t ++ [Printf text])%list)
    /\ (ConstraintsManager_CheckCriticalResource resource_id ;;
        ConstraintsManager_CheckCriticalResource CONSTRAINT_ID_SYS_CLK_RANGE ;;
        ConstraintsManager_CheckCriticalResource CONSTRAINT_ID_RAM_ACCESS_OOB) fuel t
       = (Returned false,
          (t ++ [Printf text;
                 Printf (log_line "WARN" (unknown_resource_text 0x01));
                 Printf (log_line "WARN" (unknown_resource_text 0x02))])%list).
Proof.
  intros r fuel t.
  assert (H : exists text,
             forall fuel t,
               ConstraintsManager_CheckCriticalResource r fuel t
               = (Returned ((r =? 0x03) || (r =? 0x04)), (t ++ [Printf text])%list)).
  { destruct (Z.eq_dec r 3) as [->|H3]; [|destruct (Z.eq_dec r 4) as [->|H4]].
    - eexists. intros. reflexivity.
    - eexists. intros. reflexivity.
    - eexists. intros fuel' t'.
      rewrite CheckCriticalResource_unknown by assumption.
      apply Z.eqb_neq in H3, H4. rewrite H3, H4. reflexivity. }
  destruct H as (text & H). exists text. split; [apply H|].
  unfold bind. rewrite H.
  rewrite !CheckCriticalResource_unknown
    by (unfold CONSTRAINT_ID_SYS_CLK_RANGE, CONSTRAINT_ID_RAM_ACCESS_OOB; lia).
  rewrite <- !app_assoc. reflexivity.
Qed.

(** X6.  Reporting the same violation twice in a row: for an identifier
    other than 0x01 and 0x02 both calls return and the same two events are
    added twice; for 0x01 and 0x02 the second call is never reached, and
    the outcome and the trace are those of the first call alone. *)
Theorem ReportViolation_twice (constraint_id : Z) (error_message : string)
  (fuel : nat) (t : trace) :
  (constraint_id <> 0x01 /\ constraint_id <> 0x02 ->
   (ConstraintsManager_ReportViolation constraint_id error_message ;;
    ConstraintsManager_ReportViolation constraint_id error_message) fuel t
   = (Returned tt,
      (t ++ [Enter_ReportViolation constraint_id error_message;
             Printf (log_line "ERROR" (violation_text constraint_id error_message));
             Enter_ReportViolation constraint_id error_message;
             Printf (log_line "ERROR" (violation_text constraint_id error_message))])%list))
  /\ (constraint_id = 0x01 \/ constraint_id = 0x02 ->
      (ConstraintsManager_ReportViolation constraint_id error_message ;;
       ConstraintsManager_ReportViolation constraint_id error_message) fuel t
      = ConstraintsManager_ReportViolation constraint_id error_message fuel t
      /\ count_escalations
           (snd ((ConstraintsManager_ReportViolation constraint_id error_message ;;
                  ConstraintsManager_ReportViolation constraint_id error_message)
                   fuel []))
         = 1%nat).
Proof.
  split.
  - intros Hrec. apply is_fatal_false in Hrec. unfold bind.
    rewrite !ReportViolation_recoverable by exact Hrec.
    rewrite <- !app_assoc. reflexivity.
  - intros Hfatal. apply is_fatal_true in Hfatal. unfold bind.
    rewrite !ReportViolation_fatal by exact Hfatal. split; reflexivity.
Qed.

Lemma ReportViolation_twice_witness :
  (ConstraintsManager_ReportViolation 0x04 "full" ;;
   ConstraintsManager_ReportViolation 0x04 "full") 1%nat []
  = (Returned tt,
     [Enter_ReportViolation 0x04 "full";
      Printf (log_line "ERROR" (violation_text 0x04 "full"));
      Enter_ReportViolation 0x04 "full";
      Printf (log_line "ERROR" (violation_text 0x04 "full"))])
  /\ (ConstraintsManager_ReportViolation 0x01 "clk" ;;
      ConstraintsManager_ReportViolation 0x01 "clk") 1%nat []
     = ConstraintsManager_ReportViolation 0x01 "clk" 1%nat [].
Proof.
  split.
  - apply (ReportViolation_twice 0x04 "full" 1%nat []). split; lia.
  - apply (ReportViolation_twice 0x01 "clk" 1%nat []). left. reflexivity.
Defined.

(* ================================================================== *)
(** ** Invariants of every run of a caller *)

Lemma run_call_events (c : api_call) (fuel : nat) (t : trace) :
  run_call c fuel t
  = ((if fatal_call c then Spinning else Returned tt), (t ++ call_events c)%list).
Proof.
  destruct c as [|f|a|r|id msg]; cbn [run_call fatal_call call_events].
  - unfold bind. rewrite Init_returns_true. reflexivity.
  - destruct (clock_out_of_range f) eqn:Hf.
    + apply bind_spinning. now apply ValidateClockFrequency_out_of_range.
    + unfold bind. rewrite ValidateClockFrequency_in_range by exact Hf.
      now rewrite app_nil_r.
  - destruct (ram_out_of_range a) eqn:Ha.
    + apply bind_spinning. now apply ValidateRamAddress_out_of_range.
    + unfold bind. rewrite ValidateRamAddress_in_range by exact Ha.
      now rewrite app_nil_r.
  - unfold bind, ConstraintsManager_CheckCriticalResource.
    destruct (r =? CONSTRAINT_ID_SENSOR_TIMEOUT); [reflexivity|].
    destruct (r =? CONSTRAINT_ID_COMM_BUFFER_FULL); reflexivity.
  - destruct (is_fatal id) eqn:Hf.
    + now apply ReportViolation_fatal.
    + now apply ReportViolation_recoverable.
Qed.

Lemma run_calls_events (cs : list api_call) (fuel : nat) :
  forall t,
    run_calls cs fuel t
    = ((if existsb fatal_call cs then Spinning else Returned tt),
       (t ++ calls_events cs)%list).
Proof.
  induction cs as [|c cs IH]; intros t.
  - cbn. unfold ret. now rewrite app_nil_r.
  - cbn [run_calls existsb calls_events]. unfold bind.
    rewrite run_call_events. destruct (fatal_call c).
    + cbn [orb]. now rewrite app_nil_r.
    + cbn [orb]. rewrite IH. now rewrite app_assoc.
Qed.

Lemma count_escalations_app (t1 t2 : trace) :
  count_escalations (t1 ++ t2)%list = (count_escalations t1 + count_escalations t2)%nat.
Proof.
  unfold count_escalations. now rewrite filter_app, length_app.
Qed.

Lemma count_escalations_call (c : api_call) :
  count_escalations (call_events c) = if fatal_call c then 1%nat else 0%nat.
Proof.
  destruct c as [|f|a|r|id msg]; cbn [call_events fatal_call].
  - reflexivity.
  - destruct (clock_out_of_range f); reflexivity.
  - destruct (ram_out_of_range a); reflexivity.
  - destruct (r =? CONSTRAINT_ID_SENSOR_TIMEOUT); [reflexivity|].
    destruct (r =? CONSTRAINT_ID_COMM_BUFFER_FULL); reflexivity.
  - destruct (is_fatal id); reflexivity.
Qed.

Lemma count_escalations_calls (cs : list api_call) :
  count_escalations (calls_events cs)
  = if existsb fatal_call cs then 1%nat else 0%nat.
Proof.
  induction cs as [|c cs IH]; [reflexivity|].
  cbn [calls_events existsb]. rewrite count_escalations_app, count_escalations_call.
  destruct (fatal_call c); cbn [orb]; [reflexivity | exact IH].
Qed.

(** X7.  Whatever calls of the interface a caller makes, in whatever order,
    [ErrorHandler] is entered at most once: the run adds one entry when one
    of the calls reports a fatal violation, and none otherwise. *)
Theorem ErrorHandler_entered_at_most_once :
  forall cs fuel t,
    count_escalations (snd (run_calls cs fuel t))
    = (count_escalations t + (if existsb fatal_call cs then 1 else 0))%nat
    /\ (count_escalations (snd (run_calls cs fuel [])) <= 1)%nat
    /\ (count_escalations (snd (run_calls cs fuel [])) = 1%nat
        <-> mode_after (run_calls cs fuel []) = Halted).
Proof.
  intros cs fuel t. rewrite !run_calls_events. cbn [snd app].
  rewrite count_escalations_app, count_escalations_calls.
  split; [reflexivity|]. unfold mode_after. cbn [fst].
  destruct (existsb fatal_call cs); split; try lia; split; intros H;
    try reflexivity; discriminate H.
Qed.

Lemma ErrorHandler_entered_at_most_once_witness :
  count_escalations
    (snd (run_calls [Call_ValidateRamAddress 0; Call_ValidateClockFrequency 0;
                     Call_ReportViolation 0x01 "again"] 4%nat [])) = 1%nat.
Proof.
  destruct (ErrorHandler_entered_at_most_once
              [Call_ValidateRamAddress 0; Call_ValidateClockFrequency 0;
               Call_ReportViolation 0x01 "again"] 4%nat []) as (_ & _ & Hiff).
  apply Hiff. reflexivity.
Defined.

Lemma ends_with_newline_append (s : string) :
  ends_with_newline (s ++ newline) = true.
Proof.
  induction s as [|c s IH]; [reflexivity|].
  cbn [append]. cbn [append] in IH.
  destruct (s ++ newline) as [|c' s'] eqn:E; [discriminate IH|].
  cbn [ends_with_newline]. exact IH.
Qed.

Lemma printed_text_ok_log_line (level message : string) :
  In level log_levels -> printed_text_ok (Printf (log_line level message)) = true.
Proof.
  intros Hin. cbn [printed_text_ok]. apply andb_true_iff. split.
  - unfold has_severity_tag. apply existsb_exists. exists level. split; [exact Hin|].
    replace (log_line level message)
      with (("[" ++ level ++ "] CONSTRAINTS: ") ++ (message ++ newline))
      by (unfold log_line; rewrite !append_assoc; reflexivity).
    apply prefix_append.
  - replace (log_line level message)
      with (("[" ++ level ++ "] CONSTRAINTS: " ++ message) ++ newline)
      by (unfold log_line; rewrite !append_assoc; reflexivity).
    apply ends_with_newline_append.
Qed.

Lemma call_events_printed_ok (c : api_call) :
  forallb printed_text_ok (call_events c) = true.
Proof.
  assert (Hinfo : In "INFO" log_levels) by (cbn; tauto).
  assert (Hwarn : In "WARN" log_levels) by (cbn; tauto).
  assert (Herror : In "ERROR" log_levels) by (cbn; tauto).
  assert (Hfatal : In "FATAL" log_levels) by (cbn; tauto).
  assert (Hfe : forall id msg, forallb printed_text_ok (fatal_events id msg) = true).
  { intros id msg. unfold fatal_events. cbn [forallb].
    rewrite !printed_text_ok_log_line by assumption. reflexivity. }
  destruct c as [|f|a|r|id msg]; cbn [call_events].
  - cbn [forallb]. now rewrite printed_text_ok_log_line.
  - destruct (clock_out_of_range f); [apply Hfe | reflexivity].
  - destruct (ram_out_of_range a); [apply Hfe | reflexivity].
  - destruct (r =? CONSTRAINT_ID_SENSOR_TIMEOUT);
      [|destruct (r =? CONSTRAINT_ID_COMM_BUFFER_FULL)];
      cbn [forallb]; now rewrite printed_text_ok_log_line.
  - destruct (is_fatal id); [apply Hfe|].
    cbn [forallb]. now rewrite printed_text_ok_log_line.
Qed.

Lemma calls_events_printed_ok (cs : list api_call) :
  forallb printed_text_ok (calls_events cs) = true.
Proof.
  induction cs as [|c cs IH]; [reflexivity|].
  cbn [calls_events]. rewrite forallb_app, call_events_printed_ok.
  destruct (fatal_call c); [reflexivity | exact IH].
Qed.

(** X8.  Every text printed in a run of any calls of the interface starts
    with "[INFO] CONSTRAINTS: ", "[WARN] CONSTRAINTS: ",
    "[ERROR] CONSTRAINTS: " or "[FATAL] CONSTRAINTS: " and ends with the
    newline character: a trace whose printed texts all do keeps this
    property through the run.  (A message handed to the reporter by the
    caller may itself contain newline characters.) *)
Theorem printed_texts_tagged (cs : list api_call) (fuel : nat) (t : trace) :
  forallb printed_text_ok t = true ->
  forallb printed_text_ok (snd (run_calls cs fuel t)) = true.
Proof.
  intros Ht. rewrite run_calls_events. cbn [snd].
  rewrite forallb_app, Ht. apply calls_events_printed_ok.
Qed.

Lemma printed_texts_tagged_witness :
  forallb printed_text_ok
    (snd (run_calls [Call_Init; Call_CheckCriticalResource 0xFF;
                     Call_ReportViolation 0x04 "full"; Call_ValidateClockFrequency 0]
            1%nat [])) = true.
Proof.
  apply (printed_texts_tagged
           [Call_Init; Call_CheckCriticalResource 0xFF;
            Call_ReportViolation 0x04 "full"; Call_ValidateClockFrequency 0]
           1%nat []).
  reflexivity.
Defined.

(* ================================================================== *)
(** ** Reading the values back from the texts *)

Lemma is_digit_char_digit_char (d : Z) :
  0 <= d < 16 -> is_digit_char (digit_char d) = true.
Proof.
  intros H.
  assert (Hd : exists k, (k < 16)%nat /\ d = Z.of_nat k).
  { exists (Z.to_nat d). split; lia. }
  destruct Hd as (k & Hk & ->).
  do 16 (destruct k as [|k]; [reflexivity|]). lia.
Qed.

Lemma all_digits_append (s1 s2 : string) :
  all_digits (s1 ++ s2) = all_digits s1 && all_digits s2.
Proof.
  induction s1 as [|c s1 IH]; cbn [append all_digits]; [reflexivity|].
  rewrite IH. now rewrite andb_assoc.
Qed.

Lemma all_digits_zeros (k : nat) : all_digits (zeros k) = true.
Proof.
  induction k as [|k IH]; [reflexivity|]. cbn [zeros all_digits].
  rewrite IH. reflexivity.
Qed.

Lemma all_digits_to_base (base : Z) (fuel : nat) :
  2 <= base <= 16 ->
  forall n acc, all_digits acc = true -> all_digits (to_base base fuel n acc) = true.
Proof.
  intros Hb. induction fuel as [|fuel IH]; intros n acc Hacc; cbn [to_base].
  - exact Hacc.
  - assert (Hmod : 0 <= n mod base < base) by (apply Z.mod_pos_bound; lia).
    assert (Hacc' : all_digits (String (digit_char (n mod base)) acc) = true).
    { cbn [all_digits]. rewrite is_digit_char_digit_char by lia. exact Hacc. }
    destruct (n / base =? 0); [exact Hacc' | now apply IH].
Qed.

Lemma all_digits_fmt_lX (width : nat) (n : Z) : all_digits (fmt_lX width n) = true.
Proof.
  unfold fmt_lX, pad0. rewrite all_digits_append, all_digits_zeros.
  apply all_digits_to_base; [lia | reflexivity].
Qed.

Lemma all_digits_fmt_lu (n : Z) : all_digits (fmt_lu n) = true.
Proof. unfold fmt_lu. apply all_digits_to_base; [lia | reflexivity]. Qed.

(** Reading stops at the first character that is not a digit. *)
Lemma read_number_digits (base : Z) (ds : string) :
  forall v c rest,
    all_digits ds = true ->
    is_digit_char c = false ->
    read_number base v (ds ++ String c rest) = parse_acc base v ds.
Proof.
  induction ds as [|d ds IH]; intros v c rest Hds Hc.
  - cbn [append read_number parse_acc]. now rewrite Hc.
  - cbn [all_digits] in Hds. apply andb_true_iff in Hds as [Hd Hds].
    cbn [append read_number parse_acc]. rewrite Hd. now apply IH.
Qed.

(** The text of the reporter starts with the identifier and a colon,
    whatever the length of the message. *)
Lemma violation_text_shape (constraint_id : Z) (error_message : string) :
  uint32 constraint_id ->
  exists rest,
    violation_text constraint_id error_message
    = "Violation ID 0x" ++ fmt_lX 2 constraint_id ++ String ":" rest.
Proof.
  intros Hid. pose proof (length_fmt_lX_uint32 2 constraint_id Hid) as Hlen.
  change (Nat.max 2 8) with 8%nat in Hlen.
  set (p := "Violation ID 0x" ++ fmt_lX 2 constraint_id ++ ": ").
  assert (Hp : (String.length p <= 256 - 1)%nat).
  { unfold p. rewrite !length_append. cbn [String.length Nat.sub]. lia. }
  exists (String " " (truncate (256 - 1 - String.length p) error_message)).
  unfold violation_text, snprintf.
  replace ("Violation ID 0x" ++ fmt_lX 2 constraint_id ++ ": " ++ error_message)
    with (p ++ error_message)
    by (unfold p; rewrite !append_assoc; reflexivity).
  rewrite truncate_append by exact Hp.
  unfold p. rewrite !append_assoc. reflexivity.
Qed.

(** X9.  The identifier can be read back from the line the reporter prints:
    for every 32-bit identifier and every message, however long, the
    hexadecimal number after "[ERROR] CONSTRAINTS: Violation ID 0x" is the
    identifier; so two reports that print the same line have the same
    identifier. *)
Theorem error_line_identifies_constraint (id1 id2 : Z) (m1 m2 : string) :
  uint32 id1 ->
  uint32 id2 ->
  read_number 16 0 (drop 36 (log_line "ERROR" (violation_text id1 m1))) = id1
  /\ (log_line "ERROR" (violation_text id1 m1)
      = log_line "ERROR" (violation_text id2 m2) ->
      id1 = id2).
Proof.
  assert (Hread : forall id m,
             uint32 id ->
             read_number 16 0 (drop 36 (log_line "ERROR" (violation_text id m))) = id).
  { intros id m Hid. destruct (violation_text_shape id m Hid) as (rest & E).
    rewrite E. unfold log_line. rewrite !append_assoc.
    cbn [append drop].
    rewrite read_number_digits; [|apply all_digits_fmt_lX | reflexivity].
    now apply parse_fmt_lX. }
  intros H1 H2. split; [now apply Hread|].
  intros E. rewrite <- (Hread id1 m1 H1), <- (Hread id2 m2 H2), E. reflexivity.
Qed.

Lemma error_line_identifies_constraint_witness :
  read_number 16 0
    (drop 36 (log_line "ERROR" (violation_text 0xAB "Sensor communication timed out.")))
  = 0xAB.
Proof.
  assert (U : uint32 0xAB) by (unfold uint32, UINT32_MAX; lia).
  destruct (error_line_identifies_constraint 0xAB 0xAB
              "Sensor communication timed out." "Sensor communication timed out."
              U U) as [Hread _].
  exact Hread.
Defined.

(** X10.  The offending value can be read back from the message a validator
    hands to the reporter: the decimal number after "Clock frequency " is
    the frequency and the hexadecimal number after "Memory access 0x" is the
    address, for every 32-bit value; so different values never give the
    same message. *)
Theorem validator_message_identifies_value (x y : Z) :
  uint32 x ->
  uint32 y ->
  read_number 10 0 (drop 16 (clock_message x)) = x
  /\ read_number 16 0 (drop 16 (ram_message x)) = x
  /\ (clock_message x = clock_message y -> x = y)
  /\ (ram_message x = ram_message y -> x = y).
Proof.
  assert (Hclk : forall f, uint32 f -> read_number 10 0 (drop 16 (clock_message f)) = f).
  { intros f Hf. destruct (clock_message_full f Hf) as [E _]. rewrite E.
    cbn [append drop].
    rewrite read_number_digits; [|apply all_digits_fmt_lu | reflexivity].
    now apply parse_fmt_lu. }
  assert (Hram : forall a, uint32 a -> read_number 16 0 (drop 16 (ram_message a)) = a).
  { intros a Ha. destruct (ram_message_full a Ha) as [E _]. rewrite E.
    cbn [append drop].
    rewrite read_number_digits; [|apply all_digits_fmt_lX | reflexivity].
    now apply parse_fmt_lX. }
  intros Hx Hy. split; [|split; [|split]].
  - now apply Hclk.
  - now apply Hram.
  - intros E. rewrite <- (Hclk x Hx), <- (Hclk y Hy), E. reflexivity.
  - intros E. rewrite <- (Hram x Hx), <- (Hram y Hy), E. reflexivity.
Qed.

Lemma validator_message_identifies_value_witness :
  read_number 10 0 (drop 16 (clock_message 79999999)) = 79999999
  /\ read_number 16 0 (drop 16 (ram_message 79999999)) = 79999999.
Proof.
  assert (U : uint32 79999999) by (unfold uint32, UINT32_MAX; lia).
  destruct (validator_message_identifies_value 79999999 79999999 U U)
    as (Hclk & Hram & _ & _).
  split; [exact Hclk | exact Hram].
Defined.

(* ================================================================== *)
(** ** main.c *)

(** A loop whose condition is true and whose body returns is still running
    whatever the fuel. *)
Lemma while_true_returning_body_spins (body : call unit) :
  (forall fuel t, exists t', body fuel t = (Returned tt, t')) ->
  forall fuel t, exists t', while_loop (ret true) body fuel t = (Spinning, t').
Proof.
  intros Hbody. induction fuel as [|fuel IH]; intros t.
  - exists t. reflexivity.
  - cbn [while_loop]. unfold ret at 1.
    destruct (Hbody fuel t) as (t' & E). rewrite E. apply IH.
Qed.

(** X11.  [main] never returns: after the two initialisation calls it stays
    in its loop whatever the fuel, so [return 0] is not reached.  It prints
    nothing and calls none of the functions of the constraints module: the
    trace is left as it was. *)
Theorem main_never_returns :
  forall fuel t,
    main fuel t = (Spinning, t)
    /\ (forall (A : Type) (k : Z -> call A), (r <- main ;; k r) fuel t = (Spinning, t)).
Proof.
  assert (H : forall fuel t, main fuel t = (Spinning, t)).
  { intros fuel t. unfold main, SystemManager, HardwareManager, ApplicationManager.
    unfold bind at 1. unfold ret at 1. unfold bind at 1. unfold ret at 1.
    apply bind_spinning. apply while_true_spins. }
  intros fuel t. split; [apply H|]. intros A k. apply bind_spinning, H.
Qed.
